(** * virzz/systemd: lifecycle operations over the service manager

    A shallow embedding of [systemd.go] and [cmd.go].  Every operation of the
    package is a sequence of calls to the outside world (the system bus, the
    file system, the logger, the job-completion channel); the embedding keeps
    that sequence explicit.  An operation is a program over the calls it may
    issue; running it against an environment that answers the calls yields
    how the operation ends (the value it returns, or that it never returns:
    a receive on the completion channel with no job pending blocks for
    good, and so does a loop whose condition cannot fail) together with the
    trace of calls issued. *)

From Stdlib Require Import ZArith String List Bool Lia DecimalString.
Import ListNotations.
Open Scope string_scope.
Open Scope Z_scope.
Open Scope list_scope.

Set Implicit Arguments.

(** Go's [+] on strings. *)
Notation "a +++ b" := (String.append a b) (at level 60, right associativity).

(** ** Values *)

(** A Go [error] is opaque to this package: it is created, logged through
    [err.Error()] and returned.  It is identified with its message; the nil
    error is [None] of [option error]. *)
Definition error := string.

(** A [(T, error)] result pair. *)
Inductive result (T : Type) : Type :=
| Ok : T -> result T
| Err : error -> result T.
Arguments Ok {T} _.
Arguments Err {T} _.

(** zap severities used by the package. *)
Inductive Level : Type := InfoLevel | WarnLevel | ErrorLevel.

(** Structured zap fields, [zap.String(k, v)]; [zap.Error(err)] has key
    ["error"]. *)
Definition Field := (string * string)%type.
Definition zap_String (k v : string) : Field := (k, v).
Definition zap_Error (e : error) : Field := ("error", e).

(** [dbus.UnitStatus] of go-systemd. *)
Module UnitStatus.
Record t : Type := Build {
  Name : string;
  Description : string;
  LoadState : string;
  ActiveState : string;
  SubState : string;
  Followed : string;
  Path : string;
  JobId : Z;
  JobType : string;
  JobPath : string
}.
End UnitStatus.

(** [user.User] of os/user. *)
Module User.
Record t : Type := Build {
  Uid : string;
  Gid : string;
  Username : string;
  Name : string;
  HomeDir : string
}.
End User.

(** The [Systemd] struct; its [logger] field is the logging effect below. *)
Record Systemd : Type := New {
  Name : string;
  Description : string;
  Version : string;
  AppID : string
}.

(** [strconv.Itoa]. *)
Definition Itoa (i : Z) : string := NilEmpty.string_of_int (Z.to_int i).

(** ** Calls to the outside world

    One constructor per library call the package makes, indexed by the type
    of what the call hands back.  The manager calls return [(int, error)] in
    Go; the job id is discarded everywhere, so only the error is kept.
    [Recv] is the receive [<-recv] on the job-completion channel.  The
    manager writes to that channel once for every job it queued, that is
    once for every lifecycle call it accepted with the channel; the world
    says what the result is.  A receive with no queued job left to report
    never returns: see [run]. *)
Inductive Call : Type -> Type :=
| NewSystemConnection : Call (option error)
| StartUnit (name mode : string) : Call (option error)
| StopUnit (name mode : string) : Call (option error)
| KillUnit (name : string) (signal : Z) : Call unit
| RestartUnit (name mode : string) : Call (option error)
| ReloadOrRestartUnit (name mode : string) : Call (option error)
| ReloadDaemon : Call (option error)
| ListUnitsByPatterns (states patterns : list string)
    : Call (result (list UnitStatus.t))
| Recv : Call string
| Log (lvl : Level) (msg : string) (fields : list Field) : Call unit
| Println (text : string) : Call unit
| OsExecutable : Call (result string)
| OsWriteFile (name data : string) (perm : Z) : Call (option error)
| OsReadFile (name : string) : Call (result string)
| OsRemove (name : string) : Call (option error)
| OsSymlink (oldname newname : string) : Call (option error)
| OsStat (name : string) : Call (result bool)
| UserCurrent : Call (result User.t).

(** A call together with what it returned. *)
Inductive Event : Type :=
| Ev : forall X : Type, Call X -> X -> Event.
Arguments Ev {X} _ _.

(** What the outside world answers at one moment. [os_stat] answers
    [Ok isDir]; [completion] is the value waiting on the completion channel. *)
Record World : Type := {
  dial : option error;
  start_unit : string -> string -> option error;
  stop_unit : string -> string -> option error;
  restart_unit : string -> string -> option error;
  reload_or_restart_unit : string -> string -> option error;
  reload_daemon : option error;
  list_units : list string -> list string -> result (list UnitStatus.t);
  completion : string;
  os_executable : result string;
  os_write_file : string -> string -> Z -> option error;
  os_read_file : string -> result string;
  os_remove : string -> option error;
  os_symlink : string -> string -> option error;
  os_stat : string -> result bool;
  user_current : result User.t
}.

(** The environment: the world's answers may depend on everything that
    happened before. *)
Definition Env : Type := list Event -> World.

Definition answer (w : World) {X : Type} (c : Call X) : X :=
  match c in Call X return X with
  | NewSystemConnection => dial w
  | StartUnit name mode => start_unit w name mode
  | StopUnit name mode => stop_unit w name mode
  | KillUnit _ _ => tt
  | RestartUnit name mode => restart_unit w name mode
  | ReloadOrRestartUnit name mode => reload_or_restart_unit w name mode
  | ReloadDaemon => reload_daemon w
  | ListUnitsByPatterns states patterns => list_units w states patterns
  | Recv => completion w
  | Log _ _ _ => tt
  | Println _ => tt
  | OsExecutable => os_executable w
  | OsWriteFile name data perm => os_write_file w name data perm
  | OsReadFile name => os_read_file w name
  | OsRemove name => os_remove w name
  | OsSymlink oldname newname => os_symlink w oldname newname
  | OsStat name => os_stat w name
  | UserCurrent => user_current w
  end.

(** ** Programs *)

(** [Spin] is a program that goes on for ever without returning. *)
Inductive Prog (A : Type) : Type :=
| Ret : A -> Prog A
| Spin : Prog A
| Do : forall X : Type, Call X -> (X -> Prog A) -> Prog A.
Arguments Ret {A} _.
Arguments Spin {A}.
Arguments Do {A X} _ _.

Fixpoint bind {A B : Type} (p : Prog A) (k : A -> Prog B) : Prog B :=
  match p with
  | Ret a => k a
  | Spin => Spin
  | Do c f => Do c (fun x => bind (f x) k)
  end.

Definition call {X : Type} (c : Call X) : Prog X := Do c (fun x => Ret x).

Declare Scope prog_scope.
Delimit Scope prog_scope with prog.
Bind Scope prog_scope with Prog.
Notation "x <- p ;; q" := (bind p (fun x => q))
  (at level 100, p at next level, right associativity) : prog_scope.
Notation "p ;; q" := (bind p (fun _ => q))
  (at level 100, right associativity) : prog_scope.
Open Scope prog_scope.

(** How a run ends: with a value, or not at all. *)
Inductive Outcome (A : Type) : Type :=
| Returned : A -> Outcome A
| NeverReturns : Outcome A.
Arguments Returned {A} _.
Arguments NeverReturns {A}.

(** The completion channel.  [pending h] is the number of jobs that were
    queued in history [h] and whose result has not been received yet: a
    lifecycle call made with the channel queues a job when the manager
    accepts it (a rejected call queues nothing), a receive takes one
    result. *)
Definition channel_step (n : nat) (e : Event) : nat :=
  match e with
  | Ev c x =>
      match c in Call X return X -> nat with
      | StartUnit _ _ | StopUnit _ _ | RestartUnit _ _
      | ReloadOrRestartUnit _ _ => fun r =>
          match r with
          | Some _ => n
          | None => S n
          end
      | Recv => fun _ => pred n
      | _ => fun _ => n
      end x
  end.
Definition pending (h : list Event) : nat := fold_left channel_step h 0%nat.

(** A call that never returns after history [h]: a receive on the channel
    when no job is left to report. *)
Definition starves {X : Type} (h : list Event) (c : Call X) : bool :=
  match c with
  | Recv => (pending h =? 0)%nat
  | _ => false
  end.

(** [run env h p] runs [p] after history [h]; it gives how [p] ends and the
    events [p] added. *)
Definition record {A : Type} (e : Event) (r : Outcome A * list Event)
  : Outcome A * list Event :=
  (fst r, e :: snd r).

Fixpoint run {A : Type} (env : Env) (h : list Event) (p : Prog A)
  : Outcome A * list Event :=
  match p with
  | Ret a => (Returned a, [])
  | Spin => (NeverReturns, [])
  | Do c k =>
      if starves h c then (NeverReturns, [])
      else
        let x := answer (env h) c in
        record (Ev c x) (run env (h ++ [Ev c x]) (k x))
  end.

Definition value {A : Type} (env : Env) (p : Prog A) : Outcome A :=
  fst (run env [] p).
Definition trace {A : Type} (env : Env) (p : Prog A) : list Event :=
  snd (run env [] p).

(** [for _, x := range l { body }]. *)
Fixpoint for_each {A : Type} (l : list A) (body : A -> Prog unit) : Prog unit :=
  match l with
  | [] => Ret tt
  | x :: rest => body x ;; for_each rest body
  end.

(** A range loop whose body may [return err]: the loop stops at the first
    iteration that returns an error. *)
Fixpoint for_each_err {A : Type} (l : list A) (body : A -> Prog (option error))
  : Prog (option error) :=
  match l with
  | [] => Ret None
  | x :: rest =>
      r <- body x ;;
      match r with
      | Some e => Ret (Some e)
      | None => for_each_err rest body
      end
  end.

(** The numbers [1 .. num] in increasing order: what a count of [num]
    instances stands for.  The loop that is to produce them is [count_up]
    and [count_loop] below. *)
Definition upto (num : Z) : list Z :=
  map Z.of_nat (seq 1 (Z.to_nat num)).

(** The values taken by [i] in [for i := 1; i <= num; i++], step by step
    on a 64-bit [int] whose [i++] wraps: [fuel] bounds the number of
    iterations looked at. *)
Definition int_max : Z := 2 ^ 63 - 1.
Definition wrap_int (z : Z) : Z := (z + 2 ^ 63) mod 2 ^ 64 - 2 ^ 63.
Fixpoint count_up (fuel : nat) (i num : Z) : list Z :=
  match fuel with
  | O => []
  | S fuel' =>
      if i <=? num then i :: count_up fuel' (wrap_int (i + 1)) num else []
  end.

(** [for i := start; i <= num; i++ { body }] on a 64-bit [int], followed
    for [fuel] tests of the loop condition; [Spin] stands for the loop that
    is still running after them. *)
Fixpoint count_loop (fuel : nat) (i num : Z) (body : Z -> Prog unit)
  : Prog unit :=
  match fuel with
  | O => Spin
  | S fuel' =>
      if i <=? num
      then body i ;; count_loop fuel' (wrap_int (i + 1)) num body
      else Ret tt
  end.

(** Whether that loop is still running after [fuel] tests. *)
Fixpoint loop_open (fuel : nat) (i num : Z) : bool :=
  match fuel with
  | O => true
  | S fuel' => if i <=? num then loop_open fuel' (wrap_int (i + 1)) num else false
  end.

(** The logger. *)
Definition logger_Info (msg : string) (fields : list Field) : Prog unit :=
  call (Log InfoLevel msg fields).
Definition logger_Warn (msg : string) (fields : list Field) : Prog unit :=
  call (Log WarnLevel msg fields).
Definition logger_Error (msg : string) (fields : list Field) : Prog unit :=
  call (Log ErrorLevel msg fields).

(** ** systemd.go *)

Definition UnitFile (s : Systemd) (mutli : bool) : string :=
  if mutli then "/etc/systemd/system/" +++ Name s +++ "@.service"
  else "/etc/systemd/system/" +++ Name s +++ ".service".

(** The tail shared by the manager loops: wait on the completion channel and
    log the result, at error severity when it is ["failed"].  [failed_msg]
    and [done_msg] build the two log messages, which differ from one call
    site to the next. *)
Definition wait_and_log (failed_msg done_msg : string -> string) : Prog unit :=
  v <- call Recv ;;
  if (v =? "failed")%string
  then logger_Error (failed_msg v) []
  else logger_Info (done_msg v) [].

(** Status - Get service status *)
Definition Status (s : Systemd) (show : bool)
  : Prog (result (list UnitStatus.t)) :=
  err <- call NewSystemConnection ;;
  match err with
  | Some e => Ret (Err e)
  | None =>
      r <- call (ListUnitsByPatterns [] [Name s +++ "*"]) ;;
      match r with
      | Err e => Ret (Err e)
      | Ok items =>
          (if show then
             for_each items (fun item =>
               let fields :=
                 [zap_String "name" (UnitStatus.Name item);
                  zap_String "active" (UnitStatus.ActiveState item);
                  zap_String "sub" (UnitStatus.SubState item)] in
               if (UnitStatus.SubState item =? "running")%string
               then logger_Info "Status" fields
               else logger_Warn "Status" fields)
           else Ret tt) ;;
          Ret (Ok items)
      end
  end.

(** Start the service.  The count loop is followed for [num + 1] tests of
    its condition: for a count below the largest [int] it has ended by
    then ([loop_closed]); for the largest [int] the counter has wrapped,
    the condition holds after any number of tests ([loop_at_int_max]) and
    the loop goes on for ever, so that the trace of such a run is the
    beginning of what the code does. *)
Definition Start (s : Systemd) (num : Z) (tags : list string)
  : Prog (option error) :=
  err <- call NewSystemConnection ;;
  match err with
  | Some e => Ret (Some e)
  | None =>
      if 0 <? num then
        count_loop (S (Z.to_nat num)) 1 num (fun i =>
          let name := Name s +++ "@" +++ Itoa i +++ ".service" in
          err <- call (StartUnit name "fail") ;;
          match err with
          | Some e => logger_Warn e []
          | None =>
              wait_and_log (fun v => "Started [ " +++ name +++ " ] " +++ v)
                           (fun v => "Started [ " +++ name +++ " ] " +++ v)
          end) ;;
        Ret None
      else if (0 <? length tags)%nat then
        for_each tags (fun tag =>
          let name := Name s +++ "@" +++ tag +++ ".service" in
          err <- call (StartUnit name "fail") ;;
          match err with
          | Some e => logger_Warn e []
          | None =>
              wait_and_log (fun v => "Started [ " +++ name +++ " ] " +++ v)
                           (fun v => "Started [ " +++ name +++ " ] " +++ v)
          end) ;;
        Ret None
      else
        let name := Name s +++ ".service" in
        err <- call (StartUnit name "fail") ;;
        match err with
        | Some _ =>
            let name := Name s +++ "@default.service" in
            err <- call (StartUnit name "fail") ;;
            match err with
            | Some e => Ret (Some e)
            | None =>
                wait_and_log (fun v => "Started [ " +++ name +++ " ] " +++ v)
                             (fun v => "Started [ " +++ name +++ " ] " +++ v) ;;
                Ret None
            end
        | None =>
            wait_and_log (fun v => "Started [ " +++ name +++ " ] " +++ v)
                         (fun v => "Started [ " +++ name +++ " ] " +++ v) ;;
            Ret None
        end
  end.

(** Stop the service *)
Definition Stop (s : Systemd) (all : bool) (tags : list string)
  : Prog (option error) :=
  err <- call NewSystemConnection ;;
  match err with
  | Some e => Ret (Some e)
  | None =>
      if all then
        r <- Status s false ;;
        match r with
        | Err e => Ret (Some e)
        | Ok items =>
            for_each items (fun item =>
              let name := UnitStatus.Name item in
              err <- call (StopUnit name "fail") ;;
              match err with
              | Some e => logger_Warn e []
              | None =>
                  wait_and_log (fun v => "Stop [ " +++ name +++ "] " +++ v)
                               (fun v => "Stop [ " +++ name +++ " ] " +++ v)
              end) ;;
            Ret None
        end
      else if (0 <? length tags)%nat then
        for_each tags (fun tag =>
          let name := Name s +++ "@" +++ tag +++ ".service" in
          err <- call (StopUnit name "fail") ;;
          match err with
          | Some e => logger_Warn e []
          | None =>
              wait_and_log (fun v => "Stop [" +++ name +++ "] " +++ v)
                           (fun v => "Stop [ " +++ name +++ " ] " +++ v)
          end) ;;
        Ret None
      else
        let name := Name s +++ ".service" in
        err <- call (StopUnit name "fail") ;;
        match err with
        | Some _ =>
            let name := Name s +++ "@default.service" in
            err <- call (StopUnit name "fail") ;;
            match err with
            | Some e => Ret (Some e)
            | None =>
                wait_and_log (fun v => "Stop [" +++ name +++ "] " +++ v)
                             (fun v => "Stop [ " +++ name +++ " ] " +++ v) ;;
                Ret None
            end
        | None =>
            wait_and_log (fun v => "Stop [" +++ name +++ "] " +++ v)
                         (fun v => "Stop [ " +++ name +++ " ] " +++ v) ;;
            Ret None
        end
  end.

(** Remove the service.  Both [os.Remove] calls of the slice literal are
    evaluated, in order; [slices.Contains(errs, nil)] looks for a nil among
    the two results. *)
Definition Remove (s : Systemd) : Prog (option error) :=
  logger_Info ("Removing... " +++ Name s) [] ;;
  err <- Stop s true [] ;;
  match err with
  | Some e => logger_Warn e []
  | None => Ret tt
  end ;;
  e1 <- call (OsRemove ("/etc/systemd/system/" +++ Name s +++ ".service")) ;;
  e2 <- call (OsRemove ("/etc/systemd/system/" +++ Name s +++ "@.service")) ;;
  let errs := [e1; e2] in
  if negb (existsb (fun e => match e with None => true | Some _ => false end)
                   errs)
  then Ret (Some "remove failed")
  else
    logger_Info ("Removed " +++ Name s) [] ;;
    Ret None.

Definition fileExists (name : string) : Prog bool :=
  r <- call (OsStat name) ;;
  Ret (match r with
       | Ok isDir => negb isDir
       | Err _ => false
       end).

(** [fmt.Sprintf(target, s.Name, tag)] for the one format string used,
    ["/etc/systemd/system/multi-user.target.wants/%s@%s.service"]. *)
Definition wants_format : string :=
  "/etc/systemd/system/multi-user.target.wants/%s@%s.service".
Definition Sprintf_wants (name tag : string) : string :=
  "/etc/systemd/system/multi-user.target.wants/" +++ name +++ "@" +++ tag
  +++ ".service".

(** Enable the service *)
Definition Enable (s : Systemd) (tags : list string) : Prog (option error) :=
  let origin := "/etc/systemd/system/" +++ Name s +++ "@.service" in
  ex <- fileExists origin ;;
  if ex then
    let tags := if (length tags =? 0)%nat then ["default"] else tags in
    for_each tags (fun tag =>
      let _target := Sprintf_wants (Name s) tag in
      err <- call (OsSymlink origin _target) ;;
      match err with
      | Some e =>
          logger_Error "Failed to create symlink"
            [zap_String "origin" origin; zap_String "target" _target;
             zap_Error e]
      | None =>
          logger_Info "Created symlink"
            [zap_String "target" _target; zap_String "origin" origin]
      end) ;;
    Ret None
  else
    let origin := "/etc/systemd/system/" +++ Name s +++ ".service" in
    ex <- fileExists origin ;;
    if ex then
      let target :=
        "/etc/systemd/system/multi-user.target.wants/" +++ Name s
        +++ ".service" in
      err <- call (OsSymlink origin target) ;;
      match err with
      | Some e =>
          logger_Error "Failed to create symlink"
            [zap_String "origin" origin; zap_String "target" target;
             zap_Error e]
      | None =>
          logger_Info "Created symlink"
            [zap_String "target" target; zap_String "origin" origin]
      end ;;
      Ret None
    else Ret (Some "service is not installed").

(** Disable the service *)
Definition Disable (s : Systemd) (tags : list string) : Prog (option error) :=
  let target := wants_format in
  if (0 <? length tags)%nat then
    for_each tags (fun tag =>
      err <- call (OsRemove (Sprintf_wants (Name s) tag)) ;;
      match err with
      | Some e =>
          logger_Error "Failed to remove symlink"
            [zap_String "target" target; zap_Error e]
      | None => Ret tt
      end) ;;
    Ret None
  else
    err <- call (OsRemove ("/etc/systemd/system/multi-user.target.wants/"
                           +++ Name s +++ "@default.service")) ;;
    match err with
    | Some e =>
        logger_Warn "Failed to remove symlink"
          [zap_String "target" target; zap_Error e]
    | None => Ret tt
    end ;;
    err <- call (OsRemove ("/etc/systemd/system/multi-user.target.wants/"
                           +++ Name s +++ ".service")) ;;
    match err with
    | Some e =>
        logger_Warn "Failed to remove symlink"
          [zap_String "target" target; zap_Error e]
    | None => Ret tt
    end ;;
    Ret None.

(** Kill the service *)
Definition Kill (s : Systemd) (all : bool) (tags : list string)
  : Prog (option error) :=
  err <- call NewSystemConnection ;;
  match err with
  | Some e => Ret (Some e)
  | None =>
      if all then
        r <- Status s false ;;
        match r with
        | Err e => Ret (Some e)
        | Ok items =>
            for_each items (fun item =>
              call (KillUnit (UnitStatus.Name item) 9)) ;;
            Ret None
        end
      else if (0 <? length tags)%nat then
        for_each tags (fun tag =>
          call (KillUnit (Name s +++ "@" +++ tag +++ ".service") 9)) ;;
        Ret None
      else
        call (KillUnit (Name s +++ "default.service") 9) ;;
        call (KillUnit (Name s +++ "@default.service") 9) ;;
        Ret None
  end.

(** Restart the service *)
Definition Restart (s : Systemd) (all : bool) (tags : list string)
  : Prog (option error) :=
  err <- call NewSystemConnection ;;
  match err with
  | Some e => Ret (Some e)
  | None =>
      if all then
        r <- Status s false ;;
        match r with
        | Err e => Ret (Some e)
        | Ok items =>
            for_each items (fun item =>
              let name := UnitStatus.Name item in
              err <- call (RestartUnit name "fail") ;;
              match err with
              | Some e => logger_Warn e []
              | None =>
                  wait_and_log
                    (fun v => "Restarted [ " +++ name +++ "] " +++ v)
                    (fun v => "Restarted [ " +++ name +++ " ] " +++ v)
              end) ;;
            Ret None
        end
      else if (0 <? length tags)%nat then
        for_each tags (fun tag =>
          let name := Name s +++ "@" +++ tag +++ ".service" in
          err <- call (RestartUnit name "fail") ;;
          match err with
          | Some e => logger_Warn e []
          | None =>
              wait_and_log
                (fun v => "Restarted [ " +++ name +++ " ] " +++ v)
                (fun v => "Restarted [ " +++ name +++ " ] " +++ v)
          end) ;;
        Ret None
      else
        let name := Name s +++ ".service" in
        err <- call (RestartUnit name "fail") ;;
        match err with
        | Some _ =>
            let name := Name s +++ "@default.service" in
            err <- call (RestartUnit name "fail") ;;
            match err with
            | Some e => Ret (Some e)
            | None =>
                wait_and_log
                  (fun v => "Restarted [ " +++ name +++ " ] " +++ v)
                  (fun v => "Restarted [ " +++ name +++ " ] " +++ v) ;;
                Ret None
            end
        | None =>
            wait_and_log
              (fun v => "Restarted [ " +++ name +++ " ] " +++ v)
              (fun v => "Restarted [ " +++ name +++ " ] " +++ v) ;;
            Ret None
        end
  end.

(** Reload the service.  The tags loop has no [continue] after its warning:
    it goes on to wait on the completion channel also after a call error. *)
Definition Reload (s : Systemd) (all : bool) (tags : list string)
  : Prog (option error) :=
  logger_Info ("Reloading... " +++ Name s) [] ;;
  err <- call NewSystemConnection ;;
  match err with
  | Some e => Ret (Some e)
  | None =>
      if all then
        r <- Status s false ;;
        match r with
        | Err e => Ret (Some e)
        | Ok items =>
            for_each_err items (fun item =>
              let name := UnitStatus.Name item in
              err <- call (ReloadOrRestartUnit name "fail") ;;
              match err with
              | Some e => Ret (Some e)
              | None =>
                  wait_and_log
                    (fun v => "Reloaded [ " +++ name +++ "] " +++ v)
                    (fun v => "Reloaded [ " +++ name +++ " ] " +++ v) ;;
                  Ret None
              end)
        end
      else if (0 <? length tags)%nat then
        for_each tags (fun tag =>
          let name := Name s +++ "@" +++ tag +++ ".service" in
          err <- call (ReloadOrRestartUnit name "fail") ;;
          match err with
          | Some e => logger_Warn e []
          | None => Ret tt
          end ;;
          wait_and_log
            (fun v => "Reloaded [ " +++ name +++ " ] " +++ v)
            (fun v => "Reloaded [ " +++ name +++ " ] " +++ v)) ;;
        Ret None
      else
        let name := Name s +++ ".service" in
        err <- call (ReloadOrRestartUnit name "fail") ;;
        match err with
        | Some _ =>
            let name := Name s +++ "@default.service" in
            err <- call (ReloadOrRestartUnit name "fail") ;;
            match err with
            | Some e => Ret (Some e)
            | None =>
                wait_and_log
                  (fun v => "Reloaded [ " +++ name +++ " ] " +++ v)
                  (fun v => "Reloaded [ " +++ name +++ " ] " +++ v) ;;
                Ret None
            end
        | None =>
            wait_and_log
              (fun v => "Reloaded [ " +++ name +++ " ] " +++ v)
              (fun v => "Reloaded [ " +++ name +++ " ] " +++ v) ;;
            Ret None
        end
  end.

(** ** The unit renderer and what depends on it

    [CreateUnit] lives in a file of the package that is not part of the
    sources at hand; [Install] and the [unit] verb take it as a parameter. *)
Section WithRenderer.

Variable CreateUnit :
  bool -> string -> string -> string -> list string -> result string.

Definition Install (s : Systemd) (multi : bool) (args : list string)
  : Prog (option error) :=
  logger_Info ("Install... " +++ Name s) [] ;;
  r <- call OsExecutable ;;
  match r with
  | Err e => Ret (Some e)
  | Ok execPath =>
      match CreateUnit multi (Name s) (Description s) execPath args with
      | Err e => Ret (Some e)
      | Ok buf =>
          let name := UnitFile s multi in
          err <- call (OsWriteFile name buf 420) ;;
          match err with
          | Some e =>
              logger_Error "Failed to write unit file"
                [zap_String "name" name; zap_Error e] ;;
              Ret (Some e)
          | None =>
              err <- call NewSystemConnection ;;
              match err with
              | Some e => Ret (Some e)
              | None =>
                  logger_Info ("Installed " +++ Name s) [] ;;
                  call ReloadDaemon
              end
          end
      end
  end.

(** ** cmd.go *)

Definition persistentPreRunE : Prog (option error) :=
  r <- call UserCurrent ;;
  match r with
  | Err e => Ret (Some e)
  | Ok _user =>
      if ((User.Gid _user =? "0")%string || (User.Uid _user =? "0")%string)%bool
      then Ret None
      else Ret (Some "root privileges required")
  end.

(** A parsed command line: the verb, its flags and its positional
    arguments. *)
Inductive Verb : Type :=
| installCmd (multi : bool) (args : list string)
| removeCmd
| startCmd (num : Z) (args : list string)
| stopCmd (all : bool) (args : list string)
| enableCmd (args : list string)
| disableCmd (args : list string)
| restartCmd (all : bool) (args : list string)
| killCmd (all : bool) (args : list string)
| reloadCmd (all : bool) (args : list string)
| statusCmd
| unitCmd (template multi : bool) (args : list string).

(** The [RunE] body of each verb. *)
Definition RunE (s : Systemd) (v : Verb) : Prog (option error) :=
  match v with
  | installCmd multi args => Install s multi args
  | removeCmd => Remove s
  | startCmd num args => Start s num args
  | stopCmd all args => Stop s all args
  | enableCmd args => Enable s args
  | disableCmd args => Disable s args
  | restartCmd all args => Restart s all args
  | killCmd all args => Kill s all args
  | reloadCmd all args => Reload s all args
  | statusCmd =>
      r <- Status s true ;;
      Ret (match r with Ok _ => None | Err e => Some e end)
  | unitCmd template multi args =>
      if template then
        r <- call OsExecutable ;;
        match r with
        | Err e => Ret (Some e)
        | Ok execPath =>
            match CreateUnit multi (Name s) (Description s) execPath args with
            | Err e => Ret (Some e)
            | Ok buf => call (Println buf) ;; Ret None
            end
        end
      else
        let fn := UnitFile s multi in
        logger_Info ("filepath = " +++ fn) [] ;;
        r <- call (OsReadFile fn) ;;
        match r with
        | Err e => Ret (Some e)
        | Ok buf => call (Println buf) ;; Ret None
        end
  end.

(** The pre-run hook each verb is registered with.  All eleven commands
    set [PersistentPreRunE: persistentPreRunE]. *)
Definition PersistentPreRunE (v : Verb) : Prog (option error) :=
  match v with
  | installCmd _ _ | removeCmd | startCmd _ _ | stopCmd _ _
  | enableCmd _ | disableCmd _ | restartCmd _ _ | killCmd _ _
  | reloadCmd _ _ | statusCmd | unitCmd _ _ _ => persistentPreRunE
  end.

(** How cobra executes a command that has both hooks: the persistent
    pre-run hook first, and [RunE] only when the hook returned nil. *)
Definition execute (s : Systemd) (v : Verb) : Prog (option error) :=
  err <- PersistentPreRunE v ;;
  match err with
  | Some e => Ret (Some e)
  | None => RunE s v
  end.

End WithRenderer.

(** ** Reading a trace *)

(** Unit names handed to the manager's lifecycle calls, in call order. *)
Definition unit_name_of (e : Event) : list string :=
  match e with
  | Ev c _ =>
      match c with
      | StartUnit name _ | StopUnit name _ | RestartUnit name _
      | ReloadOrRestartUnit name _ | KillUnit name _ => [name]
      | _ => []
      end
  end.
Definition unit_names (t : list Event) : list string :=
  flat_map unit_name_of t.

(** The lifecycle calls that report an error, with the error reported. *)
Definition unit_call_of (e : Event) : list (string * option error) :=
  match e with
  | Ev c x =>
      match c in Call X return X -> list (string * option error) with
      | StartUnit name _ | StopUnit name _ | RestartUnit name _
      | ReloadOrRestartUnit name _ => fun r => [(name, r)]
      | _ => fun _ => []
      end x
  end.
Definition unit_calls (t : list Event) : list (string * option error) :=
  flat_map unit_call_of t.

(** Log lines. *)
Definition log_of (e : Event) : list (Level * string * list Field) :=
  match e with
  | Ev c _ =>
      match c with
      | Log lvl msg fields => [(lvl, msg, fields)]
      | _ => []
      end
  end.
Definition logs (t : list Event) : list (Level * string * list Field) :=
  flat_map log_of t.

(** Pattern queries sent to the manager. *)
Definition query_of (e : Event) : list (list string * list string) :=
  match e with
  | Ev c _ =>
      match c with
      | ListUnitsByPatterns states patterns => [(states, patterns)]
      | _ => []
      end
  end.
Definition queries (t : list Event) : list (list string * list string) :=
  flat_map query_of t.

(** File deletions attempted, with their outcome. *)
Definition removal_of (e : Event) : list (string * option error) :=
  match e with
  | Ev c x =>
      match c in Call X return X -> list (string * option error) with
      | OsRemove name => fun r => [(name, r)]
      | _ => fun _ => []
      end x
  end.
Definition removals (t : list Event) : list (string * option error) :=
  flat_map removal_of t.

(** Symlinks attempted, [(oldname, newname)], with their outcome. *)
Definition symlink_of (e : Event) : list (string * string * option error) :=
  match e with
  | Ev c x =>
      match c in Call X return X -> list (string * string * option error) with
      | OsSymlink oldname newname => fun r => [(oldname, newname, r)]
      | _ => fun _ => []
      end x
  end.
Definition symlinks (t : list Event) : list (string * string * option error) :=
  flat_map symlink_of t.

(** Connection attempts, with their outcome. *)
Definition dial_of (e : Event) : list (option error) :=
  match e with
  | Ev c x =>
      match c in Call X return X -> list (option error) with
      | NewSystemConnection => fun r => [r]
      | _ => fun _ => []
      end x
  end.
Definition dials (t : list Event) : list (option error) :=
  flat_map dial_of t.

(** Unit names handed to the manager's start call, in call order. *)
Definition start_name_of (e : Event) : list string :=
  match e with
  | Ev c _ =>
      match c with
      | StartUnit name _ => [name]
      | _ => []
      end
  end.
Definition start_names (t : list Event) : list string :=
  flat_map start_name_of t.

(** Values received on the completion channel. *)
Definition completion_of (e : Event) : list string :=
  match e with
  | Ev c x =>
      match c in Call X return X -> list string with
      | Recv => fun v => [v]
      | _ => fun _ => []
      end x
  end.
Definition completions (t : list Event) : list string :=
  flat_map completion_of t.

(** The severity a job result is logged at. *)
Definition result_level (v : string) : Level :=
  if (v =? "failed")%string then ErrorLevel else InfoLevel.

(** In trace [t], every value received on the completion channel is
    followed at once by a log line ["Started [ <unit> ] <value>"] at
    the severity of the value. *)
Fixpoint started_logged (t : list Event) : Prop :=
  match t with
  | [] => True
  | Ev c x :: rest =>
      match c in Call X return X -> Prop with
      | Recv => fun v =>
          exists name rest',
            rest = Ev (Log (result_level v)
                           ("Started [ " +++ name +++ " ] " +++ v) []) tt
                   :: rest'
      | _ => fun _ => True
      end x
      /\ started_logged rest
  end.

(** Messages logged at warning severity. *)
Definition warning_of (e : Event) : list string :=
  match e with
  | Ev c _ =>
      match c with
      | Log WarnLevel msg _ => [msg]
      | _ => []
      end
  end.
Definition warnings (t : list Event) : list string :=
  flat_map warning_of t.

(** Errors reported by the manager's lifecycle calls. *)
Definition call_error_of (e : Event) : list error :=
  match e with
  | Ev c x =>
      match c in Call X return X -> list error with
      | StartUnit _ _ | StopUnit _ _ | RestartUnit _ _
      | ReloadOrRestartUnit _ _ => fun r =>
          match r with
          | Some err => [err]
          | None => []
          end
      | _ => fun _ => []
      end x
  end.
Definition call_errors (t : list Event) : list error :=
  flat_map call_error_of t.

(** A lifecycle call on a listed unit that the manager accepted. *)
Definition accepted (item : UnitStatus.t) : string * option error :=
  (UnitStatus.Name item, None).

(** The log line [Enable] writes for one symlink attempt. *)
Definition symlink_line (a : string * string * option error)
  : Level * string * list Field :=
  let '(origin, target, r) := a in
  match r with
  | Some e =>
      (ErrorLevel, "Failed to create symlink",
       [("origin", origin); ("target", target); ("error", e)])
  | None =>
      (InfoLevel, "Created symlink", [("target", target); ("origin", origin)])
  end.

(** Errors of the file deletions that failed. *)
Definition removal_failures (t : list Event) : list error :=
  flat_map (fun a : string * option error =>
              match snd a with
              | Some e => [e]
              | None => []
              end) (removals t).

(** The log line [Disable] writes for a failed deletion, at severity
    [lvl]. *)
Definition removal_line (lvl : Level) (e : error)
  : Level * string * list Field :=
  (lvl, "Failed to remove symlink", [("target", wants_format); ("error", e)]).

(** The log line [Status] writes for one unit. *)
Definition status_line (item : UnitStatus.t) : Level * string * list Field :=
  ((if (UnitStatus.SubState item =? "running")%string
    then InfoLevel else WarnLevel),
   "Status",
   [("name", UnitStatus.Name item);
    ("active", UnitStatus.ActiveState item);
    ("sub", UnitStatus.SubState item)]).

(** One iteration of either loop of [Start], as a program of its own. *)
Definition start_body (name : string) : Prog unit :=
  err <- call (StartUnit name "fail") ;;
  match err with
  | Some e => logger_Warn e []
  | None =>
      wait_and_log (fun v => "Started [ " +++ name +++ " ] " +++ v)
                   (fun v => "Started [ " +++ name +++ " ] " +++ v)
  end.

(** One iteration of the "all" loop of [Reload], as a program of its own. *)
Definition reload_all_body (item : UnitStatus.t) : Prog (option error) :=
  let name := UnitStatus.Name item in
  err <- call (ReloadOrRestartUnit name "fail") ;;
  match err with
  | Some e => Ret (Some e)
  | None =>
      wait_and_log (fun v => "Reloaded [ " +++ name +++ "] " +++ v)
                   (fun v => "Reloaded [ " +++ name +++ " ] " +++ v) ;;
      Ret None
  end.

(** The connection is the first thing program [p] asks of the world. *)
Definition dials_first {A : Type} (p : Prog A) : Prop :=
  forall env : Env,
    hd_error (trace env p) = Some (Ev NewSystemConnection (dial (env []))).

(** When the connection fails, program [p] does nothing else and returns
    the connection error as it is ([failure] wraps it into the return type
    of [p]). *)
Definition aborts_on_dial_failure {A : Type} (failure : error -> A)
           (p : Prog A) : Prop :=
  forall (env : Env) (e : error),
    dial (env []) = Some e ->
    run env [] p = (Returned (failure e), [Ev NewSystemConnection (Some e)]).

(** ** Sample environments *)

(** A world in which every call succeeds: user root, no unit listed, jobs
    complete with ["done"], every path is a regular file. *)
Definition calm : World := {|
  dial := None;
  start_unit := fun _ _ => None;
  stop_unit := fun _ _ => None;
  restart_unit := fun _ _ => None;
  reload_or_restart_unit := fun _ _ => None;
  reload_daemon := None;
  list_units := fun _ _ => Ok [];
  completion := "done";
  os_executable := Ok "/usr/local/bin/app";
  os_write_file := fun _ _ _ => None;
  os_read_file := fun _ => Ok "";
  os_remove := fun _ => None;
  os_symlink := fun _ _ => None;
  os_stat := fun _ => Ok false;
  user_current := Ok (User.Build "0" "0" "root" "root" "/root")
|}.

(** The environment that answers every call the same way at all times. *)
Definition steady (w : World) : Env := fun _ => w.

Definition app : Systemd := New "app" "demo service" "1.0" "app-id".

Definition unit_of (name sub : string) : UnitStatus.t :=
  UnitStatus.Build name "" "loaded" "active" sub "" "" 0 "" "".

(** Changing one answer of a world. *)
Definition set_dial (x : option error)
           (w : World) : World := {|
  dial := x;
  start_unit := start_unit w;
  stop_unit := stop_unit w;
  restart_unit := restart_unit w;
  reload_or_restart_unit := reload_or_restart_unit w;
  reload_daemon := reload_daemon w;
  list_units := list_units w;
  completion := completion w;
  os_executable := os_executable w;
  os_write_file := os_write_file w;
  os_read_file := os_read_file w;
  os_remove := os_remove w;
  os_symlink := os_symlink w;
  os_stat := os_stat w;
  user_current := user_current w
|}.

Definition set_start_unit (x : string -> string -> option error)
           (w : World) : World := {|
  dial := dial w;
  start_unit := x;
  stop_unit := stop_unit w;
  restart_unit := restart_unit w;
  reload_or_restart_unit := reload_or_restart_unit w;
  reload_daemon := reload_daemon w;
  list_units := list_units w;
  completion := completion w;
  os_executable := os_executable w;
  os_write_file := os_write_file w;
  os_read_file := os_read_file w;
  os_remove := os_remove w;
  os_symlink := os_symlink w;
  os_stat := os_stat w;
  user_current := user_current w
|}.

Definition set_reload_or_restart_unit (x : string -> string -> option error)
           (w : World) : World := {|
  dial := dial w;
  start_unit := start_unit w;
  stop_unit := stop_unit w;
  restart_unit := restart_unit w;
  reload_or_restart_unit := x;
  reload_daemon := reload_daemon w;
  list_units := list_units w;
  completion := completion w;
  os_executable := os_executable w;
  os_write_file := os_write_file w;
  os_read_file := os_read_file w;
  os_remove := os_remove w;
  os_symlink := os_symlink w;
  os_stat := os_stat w;
  user_current := user_current w
|}.

Definition set_list_units (x : list string -> list string -> result (list UnitStatus.t))
           (w : World) : World := {|
  dial := dial w;
  start_unit := start_unit w;
  stop_unit := stop_unit w;
  restart_unit := restart_unit w;
  reload_or_restart_unit := reload_or_restart_unit w;
  reload_daemon := reload_daemon w;
  list_units := x;
  completion := completion w;
  os_executable := os_executable w;
  os_write_file := os_write_file w;
  os_read_file := os_read_file w;
  os_remove := os_remove w;
  os_symlink := os_symlink w;
  os_stat := os_stat w;
  user_current := user_current w
|}.

Definition set_completion (x : string)
           (w : World) : World := {|
  dial := dial w;
  start_unit := start_unit w;
  stop_unit := stop_unit w;
  restart_unit := restart_unit w;
  reload_or_restart_unit := reload_or_restart_unit w;
  reload_daemon := reload_daemon w;
  list_units := list_units w;
  completion := x;
  os_executable := os_executable w;
  os_write_file := os_write_file w;
  os_read_file := os_read_file w;
  os_remove := os_remove w;
  os_symlink := os_symlink w;
  os_stat := os_stat w;
  user_current := user_current w
|}.

Definition set_os_remove (x : string -> option error)
           (w : World) : World := {|
  dial := dial w;
  start_unit := start_unit w;
  stop_unit := stop_unit w;
  restart_unit := restart_unit w;
  reload_or_restart_unit := reload_or_restart_unit w;
  reload_daemon := reload_daemon w;
  list_units := list_units w;
  completion := completion w;
  os_executable := os_executable w;
  os_write_file := os_write_file w;
  os_read_file := os_read_file w;
  os_remove := x;
  os_symlink := os_symlink w;
  os_stat := os_stat w;
  user_current := user_current w
|}.

Definition set_os_symlink (x : string -> string -> option error)
           (w : World) : World := {|
  dial := dial w;
  start_unit := start_unit w;
  stop_unit := stop_unit w;
  restart_unit := restart_unit w;
  reload_or_restart_unit := reload_or_restart_unit w;
  reload_daemon := reload_daemon w;
  list_units := list_units w;
  completion := completion w;
  os_executable := os_executable w;
  os_write_file := os_write_file w;
  os_read_file := os_read_file w;
  os_remove := os_remove w;
  os_symlink := x;
  os_stat := os_stat w;
  user_current := user_current w
|}.

Definition set_os_stat (x : string -> result bool)
           (w : World) : World := {|
  dial := dial w;
  start_unit := start_unit w;
  stop_unit := stop_unit w;
  restart_unit := restart_unit w;
  reload_or_restart_unit := reload_or_restart_unit w;
  reload_daemon := reload_daemon w;
  list_units := list_units w;
  completion := completion w;
  os_executable := os_executable w;
  os_write_file := os_write_file w;
  os_read_file := os_read_file w;
  os_remove := os_remove w;
  os_symlink := os_symlink w;
  os_stat := x;
  user_current := user_current w
|}.

Definition set_user_current (x : result User.t)
           (w : World) : World := {|
  dial := dial w;
  start_unit := start_unit w;
  stop_unit := stop_unit w;
  restart_unit := restart_unit w;
  reload_or_restart_unit := reload_or_restart_unit w;
  reload_daemon := reload_daemon w;
  list_units := list_units w;
  completion := completion w;
  os_executable := os_executable w;
  os_write_file := os_write_file w;
  os_read_file := os_read_file w;
  os_remove := os_remove w;
  os_symlink := os_symlink w;
  os_stat := os_stat w;
  user_current := x
|}.

(** A manager that knows none of the units: start and reload-or-restart
    calls are rejected. *)
Definition no_such_unit : World :=
  set_start_unit (fun _ _ => Some "Unit not found.")
    (set_reload_or_restart_unit (fun _ _ => Some "Unit not found.") calm).

(** No bus to connect to. *)
Definition bus_error : error :=
  "dial unix /run/dbus/system_bus_socket: connect: connection refused".
Definition no_bus : World := set_dial (Some bus_error) calm.

(** A file system in which nothing can be deleted. *)
Definition nothing_to_remove : World :=
  set_os_remove (fun _ => Some "no such file or directory") calm.

(** A file system that holds only the templated unit file. *)
Definition templated_only : World :=
  set_os_stat (fun name =>
                 if (name =? "/etc/systemd/system/app@.service")%string
                 then Ok false
                 else Err "no such file or directory") calm.

(** A file system that holds only the single-instance unit file. *)
Definition single_only : World :=
  set_os_stat (fun name =>
                 if (name =? "/etc/systemd/system/app.service")%string
                 then Ok false
                 else Err "no such file or directory") calm.

(** Users: a member of group 0 who is not root, an ordinary user, and a
    process whose user cannot be looked up. *)
Definition group_root : World :=
  set_user_current (Ok (User.Build "1000" "0" "dev" "Dev" "/home/dev")) calm.
Definition unprivileged : World :=
  set_user_current (Ok (User.Build "1000" "1000" "dev" "Dev" "/home/dev")) calm.
Definition unknown_user : World :=
  set_user_current (Err "user: unknown userid 1000") calm.

(** A renderer to run the verbs with. *)
Definition plain_unit (multi : bool) (name desc execPath : string)
           (args : list string) : result string :=
  Ok ("[Unit]" +++ desc).

(** A manager that lists two instances, one running and one dead. *)
Definition two_units : World :=
  set_list_units (fun _ _ => Ok [unit_of "app@1.service" "running";
                                 unit_of "app@2.service" "dead"]) calm.

(** A manager whose jobs all end with result ["failed"]. *)
Definition failing_jobs : World := set_completion "failed" calm.

(** The manager operations that share the bare-name-then-default scheme,
    invoked without a count or an "all" flag. *)
Inductive ManagerOp : Type := opStart | opStop | opRestart | opReload.

Definition lifecycle (s : Systemd) (op : ManagerOp) (tags : list string)
  : Prog (option error) :=
  match op with
  | opStart => Start s 0 tags
  | opStop => Stop s false tags
  | opRestart => Restart s false tags
  | opReload => Reload s false tags
  end.

(** A trace that hands the manager the bare service name and, if at all,
    the [@default] instance after it. *)
Definition bare_then_default (s : Systemd) (t : list Event) : Prop :=
  unit_names t = [Name s +++ ".service"] \/
  unit_names t = [Name s +++ ".service"; Name s +++ "@default.service"].

(** Changing further answers of a world. *)
Definition set_stop_unit (x : string -> string -> option error)
           (w : World) : World := {|
  dial := dial w;
  start_unit := start_unit w;
  stop_unit := x;
  restart_unit := restart_unit w;
  reload_or_restart_unit := reload_or_restart_unit w;
  reload_daemon := reload_daemon w;
  list_units := list_units w;
  completion := completion w;
  os_executable := os_executable w;
  os_write_file := os_write_file w;
  os_read_file := os_read_file w;
  os_remove := os_remove w;
  os_symlink := os_symlink w;
  os_stat := os_stat w;
  user_current := user_current w
|}.

Definition set_restart_unit (x : string -> string -> option error)
           (w : World) : World := {|
  dial := dial w;
  start_unit := start_unit w;
  stop_unit := stop_unit w;
  restart_unit := x;
  reload_or_restart_unit := reload_or_restart_unit w;
  reload_daemon := reload_daemon w;
  list_units := list_units w;
  completion := completion w;
  os_executable := os_executable w;
  os_write_file := os_write_file w;
  os_read_file := os_read_file w;
  os_remove := os_remove w;
  os_symlink := os_symlink w;
  os_stat := os_stat w;
  user_current := user_current w
|}.

Definition set_reload_daemon (x : option error)
           (w : World) : World := {|
  dial := dial w;
  start_unit := start_unit w;
  stop_unit := stop_unit w;
  restart_unit := restart_unit w;
  reload_or_restart_unit := reload_or_restart_unit w;
  reload_daemon := x;
  list_units := list_units w;
  completion := completion w;
  os_executable := os_executable w;
  os_write_file := os_write_file w;
  os_read_file := os_read_file w;
  os_remove := os_remove w;
  os_symlink := os_symlink w;
  os_stat := os_stat w;
  user_current := user_current w
|}.

Definition set_os_executable (x : result string)
           (w : World) : World := {|
  dial := dial w;
  start_unit := start_unit w;
  stop_unit := stop_unit w;
  restart_unit := restart_unit w;
  reload_or_restart_unit := reload_or_restart_unit w;
  reload_daemon := reload_daemon w;
  list_units := list_units w;
  completion := completion w;
  os_executable := x;
  os_write_file := os_write_file w;
  os_read_file := os_read_file w;
  os_remove := os_remove w;
  os_symlink := os_symlink w;
  os_stat := os_stat w;
  user_current := user_current w
|}.

Definition set_os_write_file (x : string -> string -> Z -> option error)
           (w : World) : World := {|
  dial := dial w;
  start_unit := start_unit w;
  stop_unit := stop_unit w;
  restart_unit := restart_unit w;
  reload_or_restart_unit := reload_or_restart_unit w;
  reload_daemon := reload_daemon w;
  list_units := list_units w;
  completion := completion w;
  os_executable := os_executable w;
  os_write_file := x;
  os_read_file := os_read_file w;
  os_remove := os_remove w;
  os_symlink := os_symlink w;
  os_stat := os_stat w;
  user_current := user_current w
|}.

Definition set_os_read_file (x : string -> result string)
           (w : World) : World := {|
  dial := dial w;
  start_unit := start_unit w;
  stop_unit := stop_unit w;
  restart_unit := restart_unit w;
  reload_or_restart_unit := reload_or_restart_unit w;
  reload_daemon := reload_daemon w;
  list_units := list_units w;
  completion := completion w;
  os_executable := os_executable w;
  os_write_file := os_write_file w;
  os_read_file := x;
  os_remove := os_remove w;
  os_symlink := os_symlink w;
  os_stat := os_stat w;
  user_current := user_current w
|}.

(** ** Further readings of a trace *)

(** Signals handed to the manager's kill call. *)
Definition kill_signal_of (e : Event) : list Z :=
  match e with
  | Ev c _ =>
      match c with
      | KillUnit _ signal => [signal]
      | _ => []
      end
  end.
Definition kill_signals (t : list Event) : list Z :=
  flat_map kill_signal_of t.

(** Files written, [(name, data, perm)]. *)
Definition write_of (e : Event) : list (string * string * Z) :=
  match e with
  | Ev c _ =>
      match c with
      | OsWriteFile name data perm => [(name, data, perm)]
      | _ => []
      end
  end.
Definition writes (t : list Event) : list (string * string * Z) :=
  flat_map write_of t.

(** Paths the file system is asked to change: written, deleted or linked. *)
Definition change_of (e : Event) : list string :=
  match e with
  | Ev c _ =>
      match c with
      | OsWriteFile name _ _ => [name]
      | OsRemove name => [name]
      | OsSymlink _ newname => [newname]
      | _ => []
      end
  end.
Definition changes (t : list Event) : list string :=
  flat_map change_of t.

(** Texts printed to standard output. *)
Definition print_of (e : Event) : list string :=
  match e with
  | Ev c _ =>
      match c with
      | Println text => [text]
      | _ => []
      end
  end.
Definition prints (t : list Event) : list string :=
  flat_map print_of t.

(** Files read. *)
Definition read_of (e : Event) : list string :=
  match e with
  | Ev c _ =>
      match c with
      | OsReadFile name => [name]
      | _ => []
      end
  end.
Definition reads (t : list Event) : list string :=
  flat_map read_of t.

(** Requests to the manager to reload its unit files, with their outcome. *)
Definition daemon_reload_of (e : Event) : list (option error) :=
  match e with
  | Ev c x =>
      match c in Call X return X -> list (option error) with
      | ReloadDaemon => fun r => [r]
      | _ => fun _ => []
      end x
  end.
Definition daemon_reloads (t : list Event) : list (option error) :=
  flat_map daemon_reload_of t.

(** One mark per lifecycle call the manager accepted, and one mark per
    value received on the completion channel. *)
Definition accepted_of (e : Event) : list unit :=
  match e with
  | Ev c x =>
      match c in Call X return X -> list unit with
      | StartUnit _ _ | StopUnit _ _ | RestartUnit _ _
      | ReloadOrRestartUnit _ _ => fun r =>
          match r with
          | Some _ => []
          | None => [tt]
          end
      | _ => fun _ => []
      end x
  end.
Definition accepted_calls (t : list Event) : nat :=
  length (flat_map accepted_of t).
Definition waited_of (e : Event) : list unit :=
  map (fun _ => tt) (completion_of e).
Definition waits (t : list Event) : nat :=
  length (flat_map waited_of t).

(** The link [Enable] and [Disable] use for one tag, and the bare link. *)
Definition tag_link (s : Systemd) (tag : string) : string :=
  "/etc/systemd/system/multi-user.target.wants/" +++ Name s +++ "@" +++ tag
  +++ ".service".
Definition bare_link (s : Systemd) : string :=
  "/etc/systemd/system/multi-user.target.wants/" +++ Name s +++ ".service".

(** More sample worlds: a manager that cannot list units, one that cannot
    reload its unit files, a process that cannot find its executable, a
    read-only file system. *)
Definition no_listing : World :=
  set_list_units (fun _ _ => Err "Access denied") calm.
Definition no_daemon_reload : World :=
  set_reload_daemon (Some "Interactive authentication required.") calm.
Definition no_executable : World :=
  set_os_executable (Err "readlink /proc/self/exe: permission denied") calm.
Definition read_only_fs : World :=
  set_os_write_file (fun _ _ _ => Some "read-only file system") calm.
Definition picky_manager : World :=
  set_start_unit (fun name _ =>
                    if (name =? "app@b.service")%string
                    then Some "Unit app@b.service not found."
                    else None) calm.

(** What [Start] does with one unit the manager accepts: the call, the
    wait for the result [v] of the job, the log line at the severity of
    [v]. *)
Definition started (name v : string) : list Event :=
  [Ev (StartUnit name "fail") None;
   Ev Recv v;
   Ev (Log (result_level v) ("Started [ " +++ name +++ " ] " +++ v) []) tt].

(** A trace made of the steps of the loops of [Start] and of nothing else:
    for each unit, either a rejected call and its warning, or an accepted
    call followed by the wait and the log line of [started]. *)
Inductive start_blocks : list Event -> Prop :=
| blocks_done : start_blocks []
| blocks_rejected (name : string) (e : error) (t : list Event) :
    start_blocks t ->
    start_blocks (Ev (StartUnit name "fail") (Some e)
                  :: Ev (Log WarnLevel e []) tt :: t)
| blocks_started (name v : string) (t : list Event) :
    start_blocks t ->
    start_blocks (started name v ++ t).

(** One iteration of the tags loop of [Reload], as a program of its own. *)
Definition reload_tags_body (s : Systemd) (tag : string) : Prog unit :=
  let name := Name s +++ "@" +++ tag +++ ".service" in
  err <- call (ReloadOrRestartUnit name "fail") ;;
  match err with
  | Some e => logger_Warn e []
  | None => Ret tt
  end ;;
  wait_and_log (fun v => "Reloaded [ " +++ name +++ " ] " +++ v)
               (fun v => "Reloaded [ " +++ name +++ " ] " +++ v).

(** The per-tag instance name. *)
Definition instance (s : Systemd) (tag : string) : string :=
  Name s +++ "@" +++ tag +++ ".service".

(** A manager that rejects reloading [app@b.service] and nothing else. *)
Definition picky_reloader : World :=
  set_reload_or_restart_unit
    (fun name _ =>
       if (name =? "app@b.service")%string
       then Some "Unit app@b.service not found."
       else None) calm.

(** A loop body that returns whatever the world answers. *)
Definition always_returns {A : Type} (env : Env) (body : A -> Prog unit)
  : Prop :=
  forall x h, fst (run env h (body x)) = Returned tt.

(** ** Running programs: general facts *)

(** String concatenations stay folded while programs are run symbolically. *)
Arguments String.append : simpl never.

Lemma pending_snoc (h : list Event) (e : Event) :
  pending (h ++ [e]) = channel_step (pending h) e.
Proof. unfold pending. now rewrite fold_left_app. Qed.

(** Splits on whatever answer the next step of the run depends on. *)
Ltac split_answers :=
  repeat (simpl; rewrite ?pending_snoc; simpl;
          match goal with
          | |- context [match ?x with _ => _ end] => destruct x eqn:?
          end);
  simpl.

Section RunFacts.

Variable env : Env.

Lemma run_bind (A B : Type) (p : Prog A) (k : A -> Prog B) :
  forall h,
    run env h (bind p k) =
    match fst (run env h p) with
    | Returned a =>
        (fst (run env (h ++ snd (run env h p)) (k a)),
         snd (run env h p) ++ snd (run env (h ++ snd (run env h p)) (k a)))
    | NeverReturns => (NeverReturns, snd (run env h p))
    end.
Proof.
  induction p as [a | | X c f IH]; intros h.
  - simpl. rewrite app_nil_r. destruct (run env h (k a)). reflexivity.
  - reflexivity.
  - simpl. destruct (starves h c); [reflexivity |].
    rewrite IH. unfold record. simpl.
    destruct (fst (run env (h ++ [Ev c (answer (env h) c)])
                       (f (answer (env h) c)))); simpl;
      [rewrite <- app_assoc |]; reflexivity.
Qed.

Lemma run_bind_fst (A B : Type) (p : Prog A) (k : A -> Prog B) h a :
  fst (run env h p) = Returned a ->
  fst (run env h (bind p k))
  = fst (run env (h ++ snd (run env h p)) (k a)).
Proof. intros Hp. rewrite run_bind, Hp. reflexivity. Qed.

Lemma run_bind_snd (A B : Type) (p : Prog A) (k : A -> Prog B) h a :
  fst (run env h p) = Returned a ->
  snd (run env h (bind p k))
  = snd (run env h p) ++ snd (run env (h ++ snd (run env h p)) (k a)).
Proof. intros Hp. rewrite run_bind, Hp. reflexivity. Qed.

Lemma run_bind_stuck (A B : Type) (p : Prog A) (k : A -> Prog B) h :
  fst (run env h p) = NeverReturns ->
  run env h (bind p k) = (NeverReturns, snd (run env h p)).
Proof. intros Hp. rewrite run_bind, Hp. reflexivity. Qed.

Lemma run_then_Ret_fst (A B : Type) (p : Prog A) (b : B) h a :
  fst (run env h p) = Returned a ->
  fst (run env h (p ;; Ret b)) = Returned b.
Proof. intros Hp. rewrite run_bind, Hp. reflexivity. Qed.

Lemma run_then_Ret_snd (A B : Type) (p : Prog A) (b : B) h :
  snd (run env h (p ;; Ret b)) = snd (run env h p).
Proof.
  rewrite run_bind. destruct (fst (run env h p)); simpl;
    [apply app_nil_r | reflexivity].
Qed.

Lemma for_each_returns (A : Type) (body : A -> Prog unit) :
  always_returns env body ->
  forall l h, fst (run env h (for_each l body)) = Returned tt.
Proof.
  intros Hret l. induction l as [| x rest IH]; intros h; [reflexivity |].
  cbn [for_each]. rewrite run_bind_fst with (a := tt) by apply Hret.
  apply IH.
Qed.

(** What a range loop contributes to an observation of the trace is the
    concatenation of what its iterations contribute. *)
Lemma for_each_observe (A B : Type) (f : Event -> list B) (g : A -> list B)
      (body : A -> Prog unit) :
  always_returns env body ->
  (forall x h, flat_map f (snd (run env h (body x))) = g x) ->
  forall l h, flat_map f (snd (run env h (for_each l body))) = flat_map g l.
Proof.
  intros Hret Hbody l. induction l as [| x rest IH]; intros h.
  - reflexivity.
  - cbn [for_each]. rewrite run_bind_snd with (a := tt) by apply Hret.
    rewrite flat_map_app, Hbody, IH. reflexivity.
Qed.

Lemma for_each_agree (A B : Type) (f g : Event -> list B)
      (body : A -> Prog unit) :
  (forall x h,
      flat_map f (snd (run env h (body x)))
      = flat_map g (snd (run env h (body x)))) ->
  forall l h,
    flat_map f (snd (run env h (for_each l body)))
    = flat_map g (snd (run env h (for_each l body))).
Proof.
  intros Hbody l. induction l as [| x rest IH]; intros h.
  - reflexivity.
  - cbn [for_each]. rewrite run_bind.
    destruct (fst (run env h (body x))); simpl.
    + rewrite !flat_map_app, Hbody, IH. reflexivity.
    + apply Hbody.
Qed.

Lemma for_each_silent (A B : Type) (f : Event -> list B)
      (body : A -> Prog unit) :
  (forall x h, flat_map f (snd (run env h (body x))) = []) ->
  forall l h, flat_map f (snd (run env h (for_each l body))) = [].
Proof.
  intros Hbody l. induction l as [| x rest IH]; intros h.
  - reflexivity.
  - cbn [for_each]. rewrite run_bind.
    destruct (fst (run env h (body x))); simpl.
    + rewrite flat_map_app, Hbody, IH. reflexivity.
    + apply Hbody.
Qed.

End RunFacts.

Lemma flat_map_singleton (A B : Type) (g : A -> B) (l : list A) :
  flat_map (fun x => [g x]) l = map g l.
Proof. induction l; simpl; congruence. Qed.


(** ** Status *)

Lemma Status_line_returns env :
  always_returns env (fun item : UnitStatus.t =>
    let fields :=
      [zap_String "name" (UnitStatus.Name item);
       zap_String "active" (UnitStatus.ActiveState item);
       zap_String "sub" (UnitStatus.SubState item)] in
    if (UnitStatus.SubState item =? "running")%string
    then logger_Info "Status" fields
    else logger_Warn "Status" fields).
Proof.
  intros item h.
  destruct (UnitStatus.SubState item =? "running")%string; reflexivity.
Qed.

Lemma Status_loop_logs env (items : list UnitStatus.t) h :
  logs (snd (run env h
    (for_each items (fun item =>
       let fields :=
         [zap_String "name" (UnitStatus.Name item);
          zap_String "active" (UnitStatus.ActiveState item);
          zap_String "sub" (UnitStatus.SubState item)] in
       if (UnitStatus.SubState item =? "running")%string
       then logger_Info "Status" fields
       else logger_Warn "Status" fields))))
  = map status_line items.
Proof.
  unfold logs. rewrite <- flat_map_singleton.
  apply for_each_observe; [apply Status_line_returns |].
  intros x h0. unfold status_line.
  destruct (UnitStatus.SubState x =? "running")%string; reflexivity.
Qed.

(** What [Status] returns once the connection is made and the query is
    answered. *)
Lemma Status_returns_list env s show items h :
  dial (env h) = None ->
  list_units (env (h ++ [Ev NewSystemConnection None])) []
             [Name s +++ "*"] = Ok items ->
  fst (run env h (Status s show)) = Returned (Ok items).
Proof.
  intros Hdial Hlist. unfold Status. simpl. rewrite Hdial. simpl.
  rewrite Hlist. simpl.
  rewrite run_then_Ret_fst with (a := tt); [reflexivity |].
  destruct show; [| reflexivity].
  apply for_each_returns, Status_line_returns.
Qed.

(** C9. [Status] with [show = false] writes no log line, whatever the
    manager answers.  When the connection is established and the pattern
    query answers [items], [Status] asks exactly for the pattern
    [<name>*], returns [items] as received, and with [show = true] writes
    exactly one log line per unit of [items], in order, at informational
    severity when the unit's sub-state is ["running"] and at warning
    severity otherwise. *)
Theorem Status_show_and_result (env : Env) (s : Systemd) :
  logs (trace env (Status s false)) = [] /\
  forall (show : bool) (items : list UnitStatus.t),
    dial (env []) = None ->
    list_units (env [Ev NewSystemConnection None]) [] [Name s +++ "*"]
      = Ok items ->
    value env (Status s show) = Returned (Ok items) /\
    queries (trace env (Status s show)) = [([], [Name s +++ "*"])] /\
    logs (trace env (Status s show))
      = (if show then map status_line items else []) /\
    (show = true ->
     length (logs (trace env (Status s show))) = length items /\
     map (fun l => fst (fst l)) (logs (trace env (Status s show)))
       = map (fun item =>
                if (UnitStatus.SubState item =? "running")%string
                then InfoLevel else WarnLevel) items).
Proof.
  split.
  - unfold trace, Status. simpl.
    destruct (dial (env [])); simpl; [reflexivity |].
    destruct (list_units _ _ _); reflexivity.
  - intros show items Hdial Hlist.
    assert (Hlogs : logs (trace env (Status s show))
                    = if show then map status_line items else []).
    { unfold trace, Status. simpl. rewrite Hdial. simpl.
      rewrite Hlist. simpl. rewrite run_then_Ret_snd.
      destruct show; [apply Status_loop_logs | reflexivity]. }
    repeat split.
    + unfold value. now apply Status_returns_list.
    + unfold trace, Status. simpl. rewrite Hdial. simpl.
      rewrite Hlist. simpl. rewrite run_then_Ret_snd.
      destruct show; [| reflexivity].
      f_equal. apply for_each_silent. intros x h0.
      destruct (UnitStatus.SubState x =? "running")%string; reflexivity.
    + exact Hlogs.
    + rewrite Hlogs, H. now rewrite length_map.
    + rewrite Hlogs, H, map_map. reflexivity.
Qed.

(** ** Start *)

Lemma upto_length (num : Z) : length (upto num) = Z.to_nat num.
Proof. unfold upto. now rewrite length_map, length_seq. Qed.

Lemma upto_nth (num : Z) (k : nat) :
  (k < Z.to_nat num)%nat -> nth k (upto num) 0 = Z.of_nat k + 1.
Proof.
  intros Hk. unfold upto.
  change 0 with (Z.of_nat 0). rewrite map_nth, seq_nth by assumption. lia.
Qed.

(** Below the largest [int] the counter never wraps, and the loop visits
    [1 .. num] whatever fuel is left over. *)
Lemma count_up_seq (num : Z) :
  num < int_max ->
  forall (fuel : nat) (i : Z),
    1 <= i <= num + 1 ->
    (Z.to_nat (num + 1 - i) <= fuel)%nat ->
    count_up fuel i num
    = map Z.of_nat (seq (Z.to_nat i) (Z.to_nat (num + 1 - i))).
Proof.
  intros Hmax. unfold int_max in Hmax.
  induction fuel as [| fuel IH]; intros i Hi Hfuel.
  - replace (Z.to_nat (num + 1 - i)) with 0%nat by lia. reflexivity.
  - cbn [count_up]. destruct (i <=? num) eqn:Hle.
    + apply Z.leb_le in Hle.
      assert (Hwrap : wrap_int (i + 1) = i + 1).
      { unfold wrap_int. rewrite Z.mod_small; lia. }
      rewrite Hwrap, IH by lia.
      replace (Z.to_nat (num + 1 - i))
        with (S (Z.to_nat (num + 1 - (i + 1)))) by lia.
      cbn [seq map]. f_equal; [lia |].
      now replace (S (Z.to_nat i)) with (Z.to_nat (i + 1)) by lia.
    + apply Z.leb_gt in Hle.
      replace (Z.to_nat (num + 1 - i)) with 0%nat by lia. reflexivity.
Qed.

(** X15. For a count below the largest [int], the counter of the loop
    [for i := 1; i <= num; i++] takes the values [1 .. num], in order, and
    then the loop ends: the increment never wraps, whatever fuel is left. *)
Lemma count_up_upto (num : Z) (fuel : nat) :
  0 <= num < int_max ->
  (Z.to_nat num <= fuel)%nat ->
  count_up fuel 1 num = upto num.
Proof.
  intros [Hnum Hmax] Hfuel. unfold upto.
  rewrite count_up_seq by (try assumption; lia).
  now replace (num + 1 - 1) with num by lia.
Qed.

(** The count loop is not unfolded by simplification. *)
Arguments count_loop : simpl never.

Lemma count_loop_S (fuel : nat) (i num : Z) (body : Z -> Prog unit) :
  count_loop (S fuel) i num body
  = if i <=? num
    then body i ;; count_loop fuel (wrap_int (i + 1)) num body
    else Ret tt.
Proof. reflexivity. Qed.

Lemma loop_closed (num : Z) :
  num < int_max ->
  forall (fuel : nat) (i : Z),
    1 <= i <= num + 1 ->
    (Z.to_nat (num + 1 - i) < fuel)%nat ->
    loop_open fuel i num = false.
Proof.
  intros Hmax. unfold int_max in Hmax.
  induction fuel as [| fuel IH]; intros i Hi Hfuel; [lia |].
  cbn [loop_open]. destruct (i <=? num) eqn:Hle; [| reflexivity].
  apply Z.leb_le in Hle.
  assert (Hwrap : wrap_int (i + 1) = i + 1).
  { unfold wrap_int. rewrite Z.mod_small; lia. }
  rewrite Hwrap. apply IH; lia.
Qed.

(** At the largest [int] the loop condition holds at every step: the loop
    is still running after any number of steps. *)
Lemma loop_at_int_max (fuel : nat) :
  forall i : Z,
    - 2 ^ 63 <= i <= int_max ->
    loop_open fuel i int_max = true /\
    length (count_up fuel i int_max) = fuel.
Proof.
  unfold int_max.
  induction fuel as [| fuel IH]; intros i Hi; [split; reflexivity |].
  cbn [loop_open count_up].
  replace (i <=? 2 ^ 63 - 1) with true by (symmetry; apply Z.leb_le; lia).
  assert (Hwrap : - 2 ^ 63 <= wrap_int (i + 1) <= 2 ^ 63 - 1).
  { unfold wrap_int.
    pose proof (Z.mod_pos_bound (i + 1 + 2 ^ 63) (2 ^ 64) ltac:(lia)). lia. }
  destruct (IH _ Hwrap) as [Hopen Hlen].
  split; [exact Hopen | cbn [length]; now rewrite Hlen].
Qed.

Section CountLoop.

Variable env : Env.
Variable body : Z -> Prog unit.
Hypothesis body_returns : always_returns env body.

Lemma count_loop_fst (num : Z) (fuel : nat) :
  forall i h,
    fst (run env h (count_loop fuel i num body))
    = if loop_open fuel i num then NeverReturns else Returned tt.
Proof.
  induction fuel as [| fuel IH]; intros i h; [reflexivity |].
  rewrite count_loop_S. cbn [loop_open].
  destruct (i <=? num); [| reflexivity].
  rewrite run_bind_fst with (a := tt) by apply body_returns. apply IH.
Qed.

Lemma count_loop_observe (B : Type) (f : Event -> list B) (g : Z -> list B)
      (num : Z) (fuel : nat) :
  (forall x h, flat_map f (snd (run env h (body x))) = g x) ->
  forall i h,
    flat_map f (snd (run env h (count_loop fuel i num body)))
    = flat_map g (count_up fuel i num).
Proof.
  intros Hbody.
  induction fuel as [| fuel IH]; intros i h; [reflexivity |].
  rewrite count_loop_S. cbn [count_up].
  destruct (i <=? num); [| reflexivity].
  rewrite run_bind_snd with (a := tt) by apply body_returns.
  rewrite flat_map_app, Hbody, IH. reflexivity.
Qed.

Lemma count_loop_agree (B : Type) (f g : Event -> list B)
      (num : Z) (fuel : nat) :
  (forall x h,
      flat_map f (snd (run env h (body x)))
      = flat_map g (snd (run env h (body x)))) ->
  forall i h,
    flat_map f (snd (run env h (count_loop fuel i num body)))
    = flat_map g (snd (run env h (count_loop fuel i num body))).
Proof.
  intros Hbody.
  induction fuel as [| fuel IH]; intros i h; [reflexivity |].
  rewrite count_loop_S.
  destruct (i <=? num); [| reflexivity].
  rewrite run_bind_snd with (a := tt) by apply body_returns.
  rewrite !flat_map_app, Hbody, IH. reflexivity.
Qed.

Lemma count_loop_invariant (P : list Event -> Prop) (num : Z) (fuel : nat) :
  P [] ->
  (forall t1 t2, P t1 -> P t2 -> P (t1 ++ t2)) ->
  (forall x h, P (snd (run env h (body x)))) ->
  forall i h, P (snd (run env h (count_loop fuel i num body))).
Proof.
  intros Hnil Happ Hbody.
  induction fuel as [| fuel IH]; intros i h; [exact Hnil |].
  rewrite count_loop_S.
  destruct (i <=? num); [| exact Hnil].
  rewrite run_bind_snd with (a := tt) by apply body_returns.
  apply Happ; [apply Hbody | apply IH].
Qed.

End CountLoop.

Lemma for_each_invariant (env : Env) (A : Type) (body : A -> Prog unit)
      (P : list Event -> Prop) :
  always_returns env body ->
  P [] ->
  (forall t1 t2, P t1 -> P t2 -> P (t1 ++ t2)) ->
  (forall x h, P (snd (run env h (body x)))) ->
  forall l h, P (snd (run env h (for_each l body))).
Proof.
  intros Hret Hnil Happ Hbody l.
  induction l as [| x rest IH]; intros h; [exact Hnil |].
  cbn [for_each]. rewrite run_bind_snd with (a := tt) by apply Hret.
  apply Happ; [apply Hbody | apply IH].
Qed.

(** The loop of [Start] for a count below the largest [int]: it ends, and
    it has run its body for [1 .. num]. *)
Lemma count_loop_below_int_max (num : Z) :
  0 <= num < int_max ->
  count_up (S (Z.to_nat num)) 1 num = upto num /\
  loop_open (S (Z.to_nat num)) 1 num = false.
Proof.
  intros [Hnum Hmax]. split.
  - unfold upto. rewrite count_up_seq by (try assumption; lia).
    now replace (num + 1 - 1) with num by lia.
  - apply loop_closed; [assumption | lia | lia].
Qed.

Section StartFacts.

Variable env : Env.
Variable s : Systemd.

Lemma start_body_returns (A : Type) (name : A -> string) :
  always_returns env (fun x => start_body (name x)).
Proof.
  intros x h. unfold start_body, wait_and_log. split_answers; reflexivity.
Qed.

Lemma start_body_names name h :
  start_names (snd (run env h (start_body name))) = [name].
Proof.
  unfold start_body, wait_and_log. split_answers; reflexivity.
Qed.

Lemma start_body_unit_names name h :
  unit_names (snd (run env h (start_body name))) = [name].
Proof.
  unfold start_body, wait_and_log. split_answers; reflexivity.
Qed.

Lemma started_logged_app t1 t2 :
  started_logged t1 -> started_logged t2 -> started_logged (t1 ++ t2).
Proof.
  induction t1 as [| [X c x] rest IH]; intros H1 H2; [exact H2 |].
  simpl in *. destruct H1 as [Hhead Hrest]. split; [| auto].
  destruct c; auto.
  destruct Hhead as (name & rest' & ->). now exists name, (rest' ++ t2).
Qed.

Lemma start_body_logged name h :
  started_logged (snd (run env h (start_body name))).
Proof.
  unfold start_body, wait_and_log. simpl.
  destruct (start_unit (env h) name "fail"); simpl; [tauto |].
  rewrite pending_snoc. simpl.
  split; [exact I |]. split.
  - exists name, []. unfold result_level.
    destruct (completion _ =? "failed")%string; reflexivity.
  - destruct (completion _ =? "failed")%string; simpl; tauto.
Qed.

Lemma start_blocks_app t1 t2 :
  start_blocks t1 -> start_blocks t2 -> start_blocks (t1 ++ t2).
Proof.
  intros H1 H2. induction H1 as [| name e t _ IH | name v t _ IH].
  - exact H2.
  - simpl. now apply blocks_rejected.
  - rewrite <- app_assoc. now apply blocks_started.
Qed.

Lemma start_body_blocks name h :
  start_blocks (snd (run env h (start_body name))).
Proof.
  unfold start_body, wait_and_log. simpl.
  destruct (start_unit (env h) name "fail") as [e |]; simpl.
  - apply blocks_rejected, blocks_done.
  - rewrite pending_snoc. simpl.
    match goal with
    | |- context [completion ?w] => set (v := completion w)
    end.
    replace (snd (run env _ _))
      with [Ev (Log (result_level v)
                    ("Started [ " +++ name +++ " ] " +++ v) []) tt]
      by (unfold result_level; destruct (v =? "failed")%string; reflexivity).
    apply (blocks_started name v), blocks_done.
Qed.

End StartFacts.

Lemma then_Ret_not_error (env : Env) (A : Type) (p : Prog A) h (e : error) :
  fst (run env h (p ;; Ret (@None error))) <> Returned (Some e).
Proof.
  rewrite run_bind. destruct (fst (run env h p)); simpl; discriminate.
Qed.

(** C5, amended.  With a count [0 < num < 2^63 - 1] and the connection
    established, [Start] issues exactly [num] manager start calls and no
    other lifecycle call; the [k]-th call (counting from 0) is for
    [<name>@<k+1>.service], so the instances are [1 .. num] in increasing
    order. *)
Theorem Start_count_instances (env : Env) (s : Systemd) (num : Z)
        (tags : list string) :
  0 < num ->
  num < int_max ->
  dial (env []) = None ->
  let names := start_names (trace env (Start s num tags)) in
  length names = Z.to_nat num /\
  (forall k : nat,
      (k < Z.to_nat num)%nat ->
      nth k names "" = Name s +++ "@" +++ Itoa (Z.of_nat k + 1) +++ ".service") /\
  names = map (fun i => Name s +++ "@" +++ Itoa i +++ ".service") (upto num) /\
  unit_names (trace env (Start s num tags)) = names.
Proof.
  intros Hnum Hmax Hdial names.
  destruct (count_loop_below_int_max (num := num) ltac:(lia)) as [Hup _].
  assert (Hnames :
    names = map (fun i => Name s +++ "@" +++ Itoa i +++ ".service") (upto num)).
  { unfold names, trace, Start. simpl. rewrite Hdial.
    replace (0 <? num) with true by (symmetry; now apply Z.ltb_lt).
    simpl. rewrite run_then_Ret_snd, <- Hup, <- flat_map_singleton.
    apply (count_loop_observe
             (start_body_returns env
                (fun i => Name s +++ "@" +++ Itoa i +++ ".service"))).
    intros i h.
    exact (start_body_names env (Name s +++ "@" +++ Itoa i +++ ".service") h). }
  assert (Hall : unit_names (trace env (Start s num tags)) = names).
  { rewrite Hnames. unfold trace, Start. simpl. rewrite Hdial.
    replace (0 <? num) with true by (symmetry; now apply Z.ltb_lt).
    simpl. rewrite run_then_Ret_snd, <- Hup, <- flat_map_singleton.
    apply (count_loop_observe
             (start_body_returns env
                (fun i => Name s +++ "@" +++ Itoa i +++ ".service"))).
    intros i h.
    exact (start_body_unit_names env
             (Name s +++ "@" +++ Itoa i +++ ".service") h). }
  split; [| split; [| split]]; try assumption.
  - rewrite Hnames, length_map. apply upto_length.
  - intros k Hk. rewrite Hnames.
    rewrite nth_indep with (d' := Name s +++ "@" +++ Itoa 0 +++ ".service")
      by (rewrite length_map, upto_length; exact Hk).
    rewrite (map_nth (fun i => Name s +++ "@" +++ Itoa i +++ ".service")).
    now rewrite upto_nth.
Qed.

Lemma Start_count_instances_witness :
  0 < 3 /\
  start_names (trace (steady calm) (Start app 3 []))
  = ["app@1.service"; "app@2.service"; "app@3.service"].
Proof.
  split; [lia |].
  destruct (Start_count_instances (steady calm) app (num := 3) []
              ltac:(lia) ltac:(unfold int_max; lia) eq_refl)
    as (_ & _ & Hnames & _).
  exact Hnames.
Defined.

Lemma Start_open_loop (env : Env) (s : Systemd) (num : Z)
      (tags : list string) :
  0 < num ->
  dial (env []) = None ->
  loop_open (S (Z.to_nat num)) 1 num = true ->
  value env (Start s num tags) = NeverReturns /\
  start_names (trace env (Start s num tags))
  = map (fun i => Name s +++ "@" +++ Itoa i +++ ".service")
        (count_up (S (Z.to_nat num)) 1 num).
Proof.
  intros Hnum Hdial Hopen. unfold value, trace, Start. simpl.
  rewrite Hdial.
  replace (0 <? num) with true by (symmetry; now apply Z.ltb_lt).
  simpl. split.
  - rewrite run_bind_stuck; [reflexivity |].
    rewrite (count_loop_fst
               (start_body_returns env
                  (fun i => Name s +++ "@" +++ Itoa i +++ ".service"))).
    now rewrite Hopen.
  - rewrite run_then_Ret_snd, <- flat_map_singleton.
    apply (count_loop_observe
             (start_body_returns env
                (fun i => Name s +++ "@" +++ Itoa i +++ ".service"))).
    intros i h.
    exact (start_body_names env (Name s +++ "@" +++ Itoa i +++ ".service") h).
Qed.

(** C5 as stated fails at the largest count an [int] holds: the loop
    counter wraps after instance [2^63 - 1], the loop condition holds
    after any number of steps, [Start] does not return, and more than
    [num] start calls are issued. *)
Lemma Start_largest_count_counterexample :
  0 < int_max /\
  dial calm = None /\
  (forall fuel : nat, loop_open fuel 1 int_max = true) /\
  value (steady calm) (Start app int_max []) = NeverReturns /\
  (Z.to_nat int_max
   < length (start_names (trace (steady calm) (Start app int_max []))))%nat.
Proof.
  assert (Hpos : 0 < int_max) by (unfold int_max; lia).
  assert (Hrange : - 2 ^ 63 <= 1 <= int_max) by (unfold int_max; lia).
  destruct (loop_at_int_max (S (Z.to_nat int_max)) Hrange) as [Hopen Hlen].
  destruct (Start_open_loop (steady calm) app [] Hpos eq_refl Hopen)
    as [Hvalue Hnames].
  split; [exact Hpos |]. split; [reflexivity |].
  split; [intros fuel; exact (proj1 (loop_at_int_max fuel Hrange)) |].
  split; [exact Hvalue |].
  rewrite Hnames, length_map, Hlen. apply Nat.lt_succ_diag_r.
Qed.

(** C6. Every value [Start] receives on the completion channel is logged
    at once, at error severity when it is ["failed"] and at informational
    severity otherwise, and [Start] waits for that value after every call
    the manager accepts: in the loops the trace is made of the steps of
    [start_blocks] only, without count and tags it is one of three exact
    traces.  [Start] returns an error [e] exactly when the connection
    failed with [e], or when neither a count nor tags were given and the
    manager rejected both the bare name and, with [e], the [@default]
    instance.  Whenever [Start] returns an error, nothing was received on
    the completion channel at all: a ["failed"] result never turns into a
    returned error. *)
Theorem Start_failed_result_not_returned (env : Env) (s : Systemd) (num : Z)
        (tags : list string) :
  let t := trace env (Start s num tags) in
  started_logged t /\
  (forall e : error,
      value env (Start s num tags) = Returned (Some e) <->
      dial (env []) = Some e \/
      (num <= 0 /\ tags = [] /\
       exists e1 : error,
         unit_calls t = [(Name s +++ ".service", Some e1);
                         (Name s +++ "@default.service", Some e)])) /\
  (forall e : error,
      value env (Start s num tags) = Returned (Some e) ->
      completions t = []) /\
  (dial (env []) = None ->
   0 < num \/ tags <> [] ->
   exists t' : list Event,
     t = Ev NewSystemConnection None :: t' /\ start_blocks t') /\
  (dial (env []) = None ->
   num <= 0 ->
   tags = [] ->
   (exists v : string,
       value env (Start s num tags) = Returned None /\
       t = Ev NewSystemConnection None :: started (Name s +++ ".service") v)
   \/ (exists (e1 : error) (v : string),
         value env (Start s num tags) = Returned None /\
         t = Ev NewSystemConnection None
             :: Ev (StartUnit (Name s +++ ".service") "fail") (Some e1)
             :: started (Name s +++ "@default.service") v)
   \/ (exists e1 e2 : error,
         value env (Start s num tags) = Returned (Some e2) /\
         t = [Ev NewSystemConnection None;
              Ev (StartUnit (Name s +++ ".service") "fail") (Some e1);
              Ev (StartUnit (Name s +++ "@default.service") "fail")
                 (Some e2)])).
Proof.
  unfold value, trace, Start. simpl.
  destruct (dial (env [])) as [e0 |] eqn:Hdial; simpl.
  - split; [tauto |]. split; [| split; [reflexivity |]].
    + intros e. split; [intros [= ->]; now left |].
      intros [[= ->] | (_ & _ & e1 & [=])]. reflexivity.
    + split; discriminate.
  - destruct (0 <? num) eqn:Hnum.
    + rewrite run_then_Ret_snd.
      apply Z.ltb_lt in Hnum.
      split; [| split; [| split; [| split]]].
      * split; [exact I |].
        apply (count_loop_invariant
                 (start_body_returns env
                    (fun i => Name s +++ "@" +++ Itoa i +++ ".service")));
          [exact I | apply started_logged_app |].
        intros i h. apply start_body_logged.
      * intros e. split; [intros H; now apply then_Ret_not_error in H |].
        intros [[=] | (Hle & _)]. lia.
      * intros e H. now apply then_Ret_not_error in H.
      * intros _ _. eexists. split; [reflexivity |].
        apply (count_loop_invariant
                 (start_body_returns env
                    (fun i => Name s +++ "@" +++ Itoa i +++ ".service")));
          [apply blocks_done | apply start_blocks_app |].
        intros i h. apply start_body_blocks.
      * intros _ Hle. lia.
    + apply Z.ltb_ge in Hnum.
      destruct (0 <? length tags)%nat eqn:Hlen.
      * assert (Htags : tags <> []) by (intros ->; discriminate).
        rewrite run_then_Ret_snd.
        split; [| split; [| split; [| split]]].
        -- split; [exact I |].
           apply (@for_each_invariant env string _ started_logged
                    (start_body_returns env
                       (fun tag => Name s +++ "@" +++ tag +++ ".service")));
             [exact I | apply started_logged_app |].
           intros tag h. apply start_body_logged.
        -- intros e. split; [intros H; now apply then_Ret_not_error in H |].
           intros [[=] | (_ & Ht & _)]. contradiction.
        -- intros e H. now apply then_Ret_not_error in H.
        -- intros _ _. eexists. split; [reflexivity |].
           apply (@for_each_invariant env string _ start_blocks
                    (start_body_returns env
                       (fun tag => Name s +++ "@" +++ tag +++ ".service")));
             [apply blocks_done | apply start_blocks_app |].
           intros tag h. apply start_body_blocks.
        -- intros _ _ Ht. contradiction.
      * destruct tags; [| discriminate]. clear Hlen.
        unfold wait_and_log, started. simpl.
        destruct (start_unit (env [Ev NewSystemConnection None]) _ _)
          as [e1 |] eqn:H1; simpl.
        -- destruct (start_unit _ (Name s +++ "@default.service") _)
             as [e2 |] eqn:H2; simpl.
           ++ split; [tauto |]. split; [| split; [reflexivity |]].
              ** intros e. split.
                 --- intros [= ->]. right. repeat split; trivial.
                     now exists e1.
                 --- intros [[=] | (_ & _ & e1' & [= _ ->])]. reflexivity.
              ** split; [intros _ [Hpos | Ht]; [lia | congruence] |].
                 intros _ _ _. right. right. now exists e1, e2.
           ++ match goal with
              | |- context [completion ?w] => set (v := completion w)
              end.
              assert (Hlvl :
                forall (A : Type) (a b : A),
                  (if (v =? "failed")%string then a else b)
                  = match result_level v with
                    | ErrorLevel => a
                    | _ => b
                    end).
              { intros A a b. unfold result_level.
                destruct (v =? "failed")%string; reflexivity. }
              assert (Hrun :
                run env
                  [Ev NewSystemConnection None;
                   Ev (StartUnit (Name s +++ ".service") "fail") (Some e1);
                   Ev (StartUnit (Name s +++ "@default.service") "fail") None;
                   Ev Recv v]
                  ((if (v =? "failed")%string
                    then logger_Error
                           ("Started [ " +++ (Name s +++ "@default.service")
                            +++ " ] " +++ v) []
                    else logger_Info
                           ("Started [ " +++ (Name s +++ "@default.service")
                            +++ " ] " +++ v) []) ;; Ret None)
                = (Returned (@None error),
                   [Ev (Log (result_level v)
                            ("Started [ " +++ (Name s +++ "@default.service")
                             +++ " ] " +++ v) []) tt])).
              { unfold result_level.
                destruct (v =? "failed")%string; reflexivity. }
              rewrite Hrun. simpl.
              split; [| split; [| split; [discriminate |]]].
              ** repeat split.
                 exists (Name s +++ "@default.service"), []. reflexivity.
              ** intros e. split; [discriminate |].
                 intros [[=] | (_ & _ & e1' & [=])].
              ** split; [intros _ [Hpos | Ht]; [lia | congruence] |].
                 intros _ _ _. right. left. now exists e1, v.
        -- match goal with
           | |- context [completion ?w] => set (v := completion w)
           end.
           assert (Hrun :
             run env
               [Ev NewSystemConnection None;
                Ev (StartUnit (Name s +++ ".service") "fail") None;
                Ev Recv v]
               ((if (v =? "failed")%string
                 then logger_Error
                        ("Started [ " +++ (Name s +++ ".service")
                         +++ " ] " +++ v) []
                 else logger_Info
                        ("Started [ " +++ (Name s +++ ".service")
                         +++ " ] " +++ v) []) ;; Ret None)
             = (Returned (@None error),
                [Ev (Log (result_level v)
                         ("Started [ " +++ (Name s +++ ".service")
                          +++ " ] " +++ v) []) tt])).
           { unfold result_level.
             destruct (v =? "failed")%string; reflexivity. }
           rewrite Hrun. simpl.
           split; [| split; [| split; [discriminate |]]].
           ** repeat split.
              exists (Name s +++ ".service"), []. reflexivity.
           ** intros e. split; [discriminate |].
              intros [[=] | (_ & _ & e1' & [=])].
           ** split; [intros _ [Hpos | Ht]; [lia | congruence] |].
              intros _ _ _. left. now exists v.
Qed.

Lemma Start_failed_result_not_returned_witness :
  value (steady no_such_unit) (Start app 0 [])
  = Returned (Some "Unit not found.") /\
  completions (trace (steady no_such_unit) (Start app 0 [])) = [] /\
  value (steady failing_jobs) (Start app 0 []) = Returned None /\
  logs (trace (steady failing_jobs) (Start app 0 []))
  = [(ErrorLevel, "Started [ app.service ] failed", [])].
Proof.
  destruct (Start_failed_result_not_returned (steady no_such_unit) app 0 [])
    as (_ & Hiff & Hnone & _).
  assert (Hv : value (steady no_such_unit) (Start app 0 [])
               = Returned (Some "Unit not found.")).
  { apply Hiff. right. split; [lia |]. split; [reflexivity |].
    exists "Unit not found.". reflexivity. }
  split; [exact Hv |]. split; [exact (Hnone _ Hv) |].
  split; reflexivity.
Defined.

(** ** Unit names handed to the manager *)

Lemma call_errors_unit_calls (t : list Event) :
  call_errors t
  = flat_map (fun p : string * option error =>
                match snd p with
                | Some e => [e]
                | None => []
                end) (unit_calls t).
Proof.
  induction t as [| [X c x] t IH]; [reflexivity |].
  unfold call_errors, unit_calls in *. simpl. rewrite flat_map_app, IH.
  f_equal. destruct c; simpl; try reflexivity; destruct x; reflexivity.
Qed.

Section UnitNames.

Variable env : Env.
Variable s : Systemd.
Hypothesis bus_up : forall h, dial (env h) = None.

Lemma tags_loop_names (body : string -> Prog unit) :
  always_returns env body ->
  (forall tag h,
      unit_names (snd (run env h (body tag)))
      = [Name s +++ "@" +++ tag +++ ".service"]) ->
  forall tags h,
    unit_names (snd (run env h (for_each tags body)))
    = map (fun tag => Name s +++ "@" +++ tag +++ ".service") tags.
Proof.
  intros Hret Hbody tags h. unfold unit_names.
  rewrite <- flat_map_singleton. now apply for_each_observe.
Qed.

Lemma lifecycle_tags_names (op : ManagerOp) (tags : list string) :
  tags <> [] ->
  op <> opReload ->
  unit_names (trace env (lifecycle s op tags))
  = map (fun tag => Name s +++ "@" +++ tag +++ ".service") tags.
Proof.
  intros Htags Hop.
  assert (Hlen : (0 <? length tags)%nat = true)
    by (destruct tags; [congruence | reflexivity]).
  unfold trace.
  destruct op; try congruence; unfold lifecycle, Start, Stop, Restart;
    rewrite Hlen; simpl; rewrite ?bus_up; simpl;
    rewrite run_then_Ret_snd;
    (apply tags_loop_names; [intros tag0 h | intros tag0 h]);
    unfold wait_and_log; split_answers; reflexivity.
Qed.

Lemma reload_tags_body_run (tag : string) (h : list Event) :
  pending h = 0%nat ->
  (exists v : string,
      run env h (reload_tags_body s tag)
      = (Returned tt,
         [Ev (ReloadOrRestartUnit (instance s tag) "fail") None;
          Ev Recv v;
          Ev (Log (result_level v)
                  ("Reloaded [ " +++ instance s tag +++ " ] " +++ v) []) tt]))
  \/ (exists e : error,
         run env h (reload_tags_body s tag)
         = (NeverReturns,
            [Ev (ReloadOrRestartUnit (instance s tag) "fail") (Some e);
             Ev (Log WarnLevel e []) tt])).
Proof.
  intros Hpending. unfold reload_tags_body, wait_and_log, instance. simpl.
  destruct (reload_or_restart_unit (env h) _ "fail") as [e |]; simpl.
  - right. exists e. rewrite !pending_snoc, Hpending. reflexivity.
  - left. rewrite pending_snoc, Hpending. simpl.
    match goal with
    | |- context [completion ?w] => exists (completion w)
    end.
    unfold result_level.
    destruct (completion _ =? "failed")%string; reflexivity.
Qed.

(** The tags loop of [Reload], started with no job pending: either every
    call is accepted and the loop ends, or the loop stops for good at the
    first rejected call, after its warning. *)
Lemma reload_tags_loop (tags : list string) :
  forall h,
    pending h = 0%nat ->
    let r := run env h (for_each tags (reload_tags_body s)) in
    warnings (snd r) = call_errors (snd r) /\
    ((fst r = Returned tt /\
      unit_calls (snd r) = map (fun tag => (instance s tag, None)) tags /\
      unit_names (snd r) = map (instance s) tags)
     \/ exists pre tag post e,
          tags = pre ++ tag :: post /\
          unit_calls (snd r)
          = map (fun tag => (instance s tag, None)) pre
            ++ [(instance s tag, Some e)] /\
          unit_names (snd r) = map (instance s) (pre ++ [tag]) /\
          fst r = NeverReturns).
Proof.
  induction tags as [| tag rest IH]; intros h Hpending.
  - simpl. split; [reflexivity |]. left. auto.
  - cbn [for_each]. cbv zeta. rewrite run_bind.
    destruct (@reload_tags_body_run tag h Hpending)
      as [(v & Hrun) | (e & Hrun)]; rewrite Hrun; cbn [fst snd].
    + assert (Hp : pending
                     (h ++ [Ev (ReloadOrRestartUnit (instance s tag) "fail")
                               None;
                            Ev Recv v;
                            Ev (Log (result_level v)
                                    ("Reloaded [ " +++ instance s tag
                                     +++ " ] " +++ v) []) tt]) = 0%nat).
      { unfold pending in *. rewrite fold_left_app, Hpending. reflexivity. }
      destruct (IH _ Hp)
        as [Hw [(Hv & Hc & Hn) | (pre & tg & post & e & Hi & Hc & Hn & Hv)]];
        rewrite Hv;
        unfold warnings, call_errors, unit_calls, unit_names in *;
        cbn [fst snd]; rewrite !flat_map_app;
        (split; [rewrite Hw; unfold result_level;
                 destruct (v =? "failed")%string; reflexivity |]).
      * left. split; [reflexivity |]. simpl. split; f_equal; assumption.
      * right. exists (tag :: pre), tg, post, e. simpl.
        split; [now f_equal |]. split; [f_equal; exact Hc |].
        split; [f_equal; exact Hn | reflexivity].
    + split; [reflexivity |]. right. exists [], tag, rest, e.
      repeat split; reflexivity.
Qed.

Lemma Reload_tags_run (tags : list string) :
  tags <> [] ->
  let t := trace env (Reload s false tags) in
  warnings t = call_errors t /\
  ((value env (Reload s false tags) = Returned None /\
    unit_calls t = map (fun tag => (instance s tag, None)) tags /\
    unit_names t = map (instance s) tags)
   \/ exists pre tag post e,
        tags = pre ++ tag :: post /\
        unit_calls t
        = map (fun tag => (instance s tag, None)) pre
          ++ [(instance s tag, Some e)] /\
        unit_names t = map (instance s) (pre ++ [tag]) /\
        value env (Reload s false tags) = NeverReturns).
Proof.
  intros Htags.
  assert (Hlen : (0 <? length tags)%nat = true)
    by (destruct tags; [congruence | reflexivity]).
  unfold value, trace, Reload. rewrite Hlen. simpl. rewrite bus_up. simpl.
  match goal with
  | |- context [run env ?h' (for_each tags ?body ;; Ret None)] =>
      change body with (reload_tags_body s);
      destruct (@reload_tags_loop tags h' eq_refl)
        as [Hw [(Hv & Hc & Hn) | (pre & tg & post & e & Hi & Hc & Hn & Hv)]];
      rewrite (run_bind env (for_each tags (reload_tags_body s))
                 (fun _ => Ret None) h'), Hv
  end; simpl.
  - rewrite app_nil_r. split; [exact Hw |]. left. auto.
  - split; [exact Hw |]. right. exists pre, tg, post, e. auto.
Qed.

Lemma lifecycle_tags_prefix (op : ManagerOp) (tags : list string) :
  tags <> [] ->
  exists rest : list string,
    map (fun tag => Name s +++ "@" +++ tag +++ ".service") tags
    = unit_names (trace env (lifecycle s op tags)) ++ rest.
Proof.
  intros Htags.
  assert (Hother : op <> opReload ->
                   exists rest : list string,
                     map (fun tag => Name s +++ "@" +++ tag +++ ".service") tags
                     = unit_names (trace env (lifecycle s op tags)) ++ rest).
  { intros Hop. exists []. rewrite lifecycle_tags_names by assumption.
    now rewrite app_nil_r. }
  destruct op; try (apply Hother; discriminate).
  unfold lifecycle.
  destruct (Reload_tags_run Htags)
    as [_ [(_ & _ & Hn) | (pre & tg & post & e & Hi & _ & Hn & _)]];
    rewrite Hn.
  - exists []. now rewrite app_nil_r.
  - exists (map (instance s) post). rewrite Hi, <- map_app, <- app_assoc.
    reflexivity.
Qed.

Lemma lifecycle_tags_nonempty (op : ManagerOp) (tags : list string) :
  tags <> [] ->
  unit_names (trace env (lifecycle s op tags)) <> [].
Proof.
  intros Htags.
  assert (Hother : op <> opReload ->
                   unit_names (trace env (lifecycle s op tags)) <> []).
  { intros Hop. rewrite (lifecycle_tags_names Htags Hop).
    destruct tags; [congruence | discriminate]. }
  destruct op; try (apply Hother; discriminate).
  unfold lifecycle.
  destruct (Reload_tags_run Htags)
    as [_ [(_ & _ & Hn) | (pre & tg & post & e & _ & _ & Hn & _)]];
    rewrite Hn.
  - destruct tags; [congruence | discriminate].
  - destruct pre; discriminate.
Qed.

Lemma Reload_tags_all_accepted (tags : list string) :
  tags <> [] ->
  call_errors (trace env (Reload s false tags)) = [] ->
  unit_names (trace env (Reload s false tags))
  = map (fun tag => Name s +++ "@" +++ tag +++ ".service") tags.
Proof.
  intros Htags Hnone.
  destruct (Reload_tags_run Htags)
    as [_ [(_ & _ & Hn) | (pre & tg & post & e & _ & Hc & _ & _)]];
    [exact Hn |].
  exfalso. rewrite call_errors_unit_calls, Hc, flat_map_app in Hnone.
  apply app_eq_nil in Hnone. destruct Hnone as [_ Hnone]. discriminate.
Qed.

Lemma Kill_tags_names (tags : list string) :
  tags <> [] ->
  unit_names (trace env (Kill s false tags))
  = map (fun tag => Name s +++ "@" +++ tag +++ ".service") tags.
Proof.
  intros Htags.
  assert (Hlen : (0 <? length tags)%nat = true)
    by (destruct tags; [congruence | reflexivity]).
  unfold trace, Kill. rewrite Hlen. simpl. rewrite bus_up. simpl.
  rewrite run_then_Ret_snd.
  apply tags_loop_names; [intros tag h |]; reflexivity.
Qed.

Lemma lifecycle_bare_calls (op : ManagerOp) :
  unit_calls (trace env (lifecycle s op [])) = [(Name s +++ ".service", None)]
  \/ exists (e : error) (r : option error),
       unit_calls (trace env (lifecycle s op []))
       = [(Name s +++ ".service", Some e);
          (Name s +++ "@default.service", r)].
Proof.
  unfold trace.
  destruct op; unfold lifecycle, Start, Stop, Restart, Reload, wait_and_log;
    simpl; rewrite ?bus_up; split_answers; eauto.
Qed.

End UnitNames.

Lemma Enable_Disable_no_manager env s tags :
  unit_names (trace env (Enable s tags)) = [] /\
  dials (trace env (Enable s tags)) = [] /\
  unit_names (trace env (Disable s tags)) = [] /\
  dials (trace env (Disable s tags)) = [].
Proof.
  unfold trace, Enable, Disable, fileExists.
  assert (Hen : forall (B : Type) (f : Event -> list B) origin l h,
    (forall X (c : Call X) x,
        match c with OsSymlink _ _ | Log _ _ _ => True | _ => False end ->
        f (Ev c x) = []) ->
    flat_map f (snd (run env h (for_each l (fun tag =>
      let _target := Sprintf_wants (Name s) tag in
      err <- call (OsSymlink origin _target) ;;
      match err with
      | Some e =>
          logger_Error "Failed to create symlink"
            [zap_String "origin" origin; zap_String "target" _target;
             zap_Error e]
      | None =>
          logger_Info "Created symlink"
            [zap_String "target" _target; zap_String "origin" origin]
      end)))) = []).
  { intros B f origin l h Hf. apply for_each_silent. intros tag h0. simpl.
    destruct (os_symlink _ _ _); simpl; rewrite !Hf; simpl; auto. }
  assert (Hdis : forall (B : Type) (f : Event -> list B) l h,
    (forall X (c : Call X) x,
        match c with OsRemove _ | Log _ _ _ => True | _ => False end ->
        f (Ev c x) = []) ->
    flat_map f (snd (run env h (for_each l (fun tag =>
      err <- call (OsRemove (Sprintf_wants (Name s) tag)) ;;
      match err with
      | Some e =>
          logger_Error "Failed to remove symlink"
            [zap_String "target" wants_format; zap_Error e]
      | None => Ret tt
      end)))) = []).
  { intros B f l h Hf. apply for_each_silent. intros tag h0. simpl.
    destruct (os_remove _ _); simpl; rewrite !Hf; simpl; auto. }
  repeat split.
  - simpl.
    destruct (os_stat (env []) _) as [[|] | e0]; simpl;
      try (destruct (os_stat _ _) as [[|] | e1]; simpl; trivial;
           destruct (os_symlink _ _ _); reflexivity).
    rewrite run_then_Ret_snd.
    apply Hen. intros X c x. destruct c; simpl; tauto.
  - simpl.
    destruct (os_stat (env []) _) as [[|] | e0]; simpl;
      try (destruct (os_stat _ _) as [[|] | e1]; simpl; trivial;
           destruct (os_symlink _ _ _); reflexivity).
    rewrite run_then_Ret_snd.
    apply Hen. intros X c x. destruct c; simpl; tauto.
  - destruct tags as [| tag tags]; cbn [length Nat.ltb Nat.leb].
    + split_answers; reflexivity.
    + rewrite run_then_Ret_snd. apply Hdis.
      intros X c x. destruct c; simpl; tauto.
  - destruct tags as [| tag tags]; cbn [length Nat.ltb Nat.leb].
    + split_answers; reflexivity.
    + rewrite run_then_Ret_snd. apply Hdis.
      intros X c x. destruct c; simpl; tauto.
Qed.

Lemma lifecycle_bare_names env s (op : ManagerOp) :
  (forall h, dial (env h) = None) ->
  bare_then_default s (trace env (lifecycle s op [])).
Proof.
  intros bus_up. unfold bare_then_default, trace.
  destruct op; unfold lifecycle, Start, Stop, Restart, Reload, wait_and_log;
    simpl; rewrite ?bus_up; split_answers; auto.
Qed.

(** C1, amended.  With the connection established: Start, Stop, Restart
    and Reload invoked without tags and without a count or "all" flag hand
    the manager the bare name [<name>.service] first, and the instance
    [<name>@default.service] after it exactly when the bare name was
    rejected.  Invoked with tags they hand the manager per-tag names
    [<name>@<tag>.service] only, in tag order and starting with the first
    tag; Start, Stop, Restart and Kill hand it the name of every tag, and
    so does Reload when the manager rejects none of its calls.  Enable and
    Disable never connect to the manager and hand it no unit name.
    Nothing is said about what Kill sends without tags. *)
Theorem lifecycle_unit_names (env : Env) (s : Systemd) :
  (forall h, dial (env h) = None) ->
  (forall op : ManagerOp,
      bare_then_default s (trace env (lifecycle s op [])) /\
      (unit_calls (trace env (lifecycle s op []))
       = [(Name s +++ ".service", None)]
       \/ exists (e : error) (r : option error),
            unit_calls (trace env (lifecycle s op []))
            = [(Name s +++ ".service", Some e);
               (Name s +++ "@default.service", r)])) /\
  (forall (op : ManagerOp) (tags : list string),
      tags <> [] ->
      (exists rest : list string,
          map (fun tag => Name s +++ "@" +++ tag +++ ".service") tags
          = unit_names (trace env (lifecycle s op tags)) ++ rest) /\
      unit_names (trace env (lifecycle s op tags)) <> [] /\
      (op <> opReload \/ call_errors (trace env (lifecycle s op tags)) = [] ->
       unit_names (trace env (lifecycle s op tags))
       = map (fun tag => Name s +++ "@" +++ tag +++ ".service") tags)) /\
  (forall tags : list string,
      tags <> [] ->
      unit_names (trace env (Kill s false tags))
      = map (fun tag => Name s +++ "@" +++ tag +++ ".service") tags) /\
  (forall tags : list string,
      unit_names (trace env (Enable s tags)) = [] /\
      dials (trace env (Enable s tags)) = [] /\
      unit_names (trace env (Disable s tags)) = [] /\
      dials (trace env (Disable s tags)) = []).
Proof.
  intros bus_up. repeat apply conj.
  - intros op. split.
    + now apply lifecycle_bare_names.
    + now apply lifecycle_bare_calls.
  - intros op tags Htags. split; [| split].
    + now apply lifecycle_tags_prefix.
    + now apply lifecycle_tags_nonempty.
    + intros Hcase.
      destruct op;
        try (apply lifecycle_tags_names; [assumption .. | discriminate]).
      destruct Hcase as [Hop | Hnone]; [congruence |].
      now apply Reload_tags_all_accepted.
  - intros tags. now apply Kill_tags_names.
  - intros tags. apply Enable_Disable_no_manager.
Qed.

Lemma lifecycle_unit_names_witness :
  (forall h, dial (steady calm h) = None) /\
  unit_names (trace (steady calm) (Stop app false []))
  = ["app.service"] /\
  unit_names
    (trace (steady (set_reload_or_restart_unit
                      (fun name _ =>
                         if (name =? "app.service")%string
                         then Some "Unit app.service not found."
                         else None) calm))
           (Reload app false []))
  = ["app.service"; "app@default.service"] /\
  unit_names (trace (steady calm) (Kill app false ["a"; "b"]))
  = ["app@a.service"; "app@b.service"] /\
  unit_names (trace (steady calm) (Restart app false ["a"; "b"]))
  = ["app@a.service"; "app@b.service"] /\
  unit_names (trace (steady calm) (Reload app false ["a"; "b"]))
  = ["app@a.service"; "app@b.service"].
Proof.
  split; [reflexivity |]. split; [reflexivity |]. split; [reflexivity |].
  destruct (lifecycle_unit_names (steady calm) app (fun _ => eq_refl))
    as (_ & Htags & Hkill & _).
  split; [exact (Hkill ["a"; "b"] ltac:(discriminate)) |].
  split.
  - destruct (Htags opRestart ["a"; "b"] ltac:(discriminate))
      as (_ & _ & Hall).
    apply Hall. left. discriminate.
  - destruct (Htags opReload ["a"; "b"] ltac:(discriminate))
      as (_ & _ & Hall).
    apply Hall. right. vm_compute. reflexivity.
Defined.

(** C1 as stated fails for Kill: without tags and without the "all" flag it
    hands the manager [<name>default.service] and then
    [<name>@default.service], also when the manager accepts every call; the
    bare name [<name>.service] is never sent.  It fails for Enable as well:
    nothing is handed to the manager, and with a tag but only the
    single-instance unit file installed the link made is the bare
    [<name>.service], not the per-tag instance. *)
Lemma Kill_without_tags_counterexample :
  dial calm = None /\
  unit_names (trace (steady calm) (Kill app false []))
  = ["appdefault.service"; "app@default.service"] /\
  ~ bare_then_default app (trace (steady calm) (Kill app false [])) /\
  ~ In "app.service" (unit_names (trace (steady calm) (Kill app false []))) /\
  unit_names (trace (steady single_only) (Enable app ["blue"])) = [] /\
  map fst (symlinks (trace (steady single_only) (Enable app ["blue"])))
  = [("/etc/systemd/system/app.service",
      "/etc/systemd/system/multi-user.target.wants/app.service")].
Proof.
  split; [reflexivity |]. split; [reflexivity |]. split; [| split].
  - intros [H | H]; vm_compute in H; discriminate.
  - vm_compute. intros [H | [H | []]]; discriminate.
  - split; reflexivity.
Qed.

(** ** Reload *)

Section ReloadFacts.

Variable env : Env.
Variable s : Systemd.
Hypothesis bus_up : forall h, dial (env h) = None.

Lemma Reload_tags_not_returned (tags : list string) :
  tags <> [] ->
  (forall e : error, value env (Reload s false tags) <> Returned (Some e)) /\
  warnings (trace env (Reload s false tags))
  = call_errors (trace env (Reload s false tags)).
Proof.
  intros Htags.
  destruct (Reload_tags_run env s bus_up Htags)
    as [Hw [(Hv & _) | (pre & tg & post & e & _ & _ & _ & Hv)]];
    (split; [intros err; rewrite Hv; discriminate | exact Hw]).
Qed.

Lemma Reload_neither :
  let t := trace env (Reload s false []) in
  warnings t = [] /\
  forall e : error,
    value env (Reload s false []) = Returned (Some e) <->
    exists e1 : error,
      unit_calls t = [(Name s +++ ".service", Some e1);
                      (Name s +++ "@default.service", Some e)].
Proof.
  unfold value, trace, Reload, wait_and_log. simpl. rewrite bus_up.
  split_answers; (split; [reflexivity |]); intros err; split;
    try discriminate; try (intros (? & [=]); congruence).
  intros [= ->]. eauto.
Qed.

Lemma reload_all_loop (items : list UnitStatus.t) :
  forall h,
    let r := run env h (for_each_err items reload_all_body) in
    warnings (snd r) = [] /\
    ((fst r = Returned None /\ unit_calls (snd r) = map accepted items)
     \/ exists pre item post e,
          items = pre ++ item :: post /\
          unit_calls (snd r)
          = map accepted pre ++ [(UnitStatus.Name item, Some e)] /\
          fst r = Returned (Some e)).
Proof.
  induction items as [| item rest IH]; intros h.
  - simpl. auto.
  - cbn [for_each_err]. unfold reload_all_body at 1, wait_and_log. simpl.
    destruct (reload_or_restart_unit (env h) (UnitStatus.Name item) "fail")
      as [e |] eqn:Hcall; simpl.
    + split; [reflexivity |]. right. exists [], item, rest, e. auto.
    + rewrite pending_snoc. simpl.
      destruct (completion _ =? "failed")%string; simpl;
        match goal with
        | |- context [run env ?h' (for_each_err rest reload_all_body)] =>
            destruct (IH h') as [Hw [[Hv Hc] | (pre & it & post & e & Hi & Hc & Hv)]]
        end;
        (split; [exact Hw |]);
        try (left; split; [exact Hv | now rewrite Hc]);
        right; exists (item :: pre), it, post, e;
        (split; [now rewrite Hi | split; [now rewrite Hc | exact Hv]]).
Qed.

Lemma Reload_all (tags : list string) (items : list UnitStatus.t) :
  (forall h, list_units (env h) [] [Name s +++ "*"] = Ok items) ->
  let t := trace env (Reload s true tags) in
  warnings t = [] /\
  ((value env (Reload s true tags) = Returned None /\
    unit_calls t = map accepted items)
   \/ exists pre item post e,
        items = pre ++ item :: post /\
        unit_calls t = map accepted pre ++ [(UnitStatus.Name item, Some e)] /\
        value env (Reload s true tags) = Returned (Some e)).
Proof.
  intros Hlist. unfold value, trace, Reload, Status. simpl.
  rewrite bus_up. simpl. rewrite bus_up. simpl. rewrite Hlist. simpl.
  match goal with
  | |- context [run env ?h' (for_each_err items _)] =>
      exact (reload_all_loop items h')
  end.
Qed.

End ReloadFacts.

Lemma Reload_tags_nil_iff (env : Env) (s : Systemd) (tags : list string) :
  (forall h, dial (env h) = None) ->
  tags <> [] ->
  value env (Reload s false tags) = Returned None <->
  call_errors (trace env (Reload s false tags)) = [].
Proof.
  intros bus_up Htags. rewrite call_errors_unit_calls.
  destruct (Reload_tags_run env s bus_up Htags)
    as [_ [(Hv & Hc & _) | (pre & tg & post & e & _ & Hc & _ & Hv)]];
    rewrite Hv, Hc.
  - split; [intros _ | reflexivity].
    clear. induction tags as [| tag tags IH]; [reflexivity | exact IH].
  - split; [discriminate |].
    rewrite flat_map_app. simpl. intros H.
    apply app_eq_nil in H. destruct H as [_ H]. discriminate.
Qed.

(** C2, amended.  With the connection established, in [Reload]:
    - tags branch: every call error is logged as a warning and none is
      returned ([Reload] returns nil exactly when no call was rejected);
    - branch with neither tags nor "all": no warning is logged; the error
      of the bare-name call is dropped and leads to the [@default] call,
      and [Reload] returns an error exactly when that second call is
      rejected too, namely its error;
    - "all" branch: no warning is logged; the first call error is returned
      at once and the units after it are not processed; without a call
      error every listed unit is processed and [Reload] returns nil. *)
Theorem Reload_error_policy (env : Env) (s : Systemd) :
  (forall h, dial (env h) = None) ->
  (forall tags : list string,
      tags <> [] ->
      (forall e : error,
          value env (Reload s false tags) <> Returned (Some e)) /\
      warnings (trace env (Reload s false tags))
      = call_errors (trace env (Reload s false tags)) /\
      (value env (Reload s false tags) = Returned None <->
       call_errors (trace env (Reload s false tags)) = [])) /\
  (warnings (trace env (Reload s false [])) = [] /\
   forall e : error,
     value env (Reload s false []) = Returned (Some e) <->
     exists e1 : error,
       unit_calls (trace env (Reload s false []))
       = [(Name s +++ ".service", Some e1);
          (Name s +++ "@default.service", Some e)]) /\
  (forall (tags : list string) (items : list UnitStatus.t),
      (forall h, list_units (env h) [] [Name s +++ "*"] = Ok items) ->
      warnings (trace env (Reload s true tags)) = [] /\
      ((value env (Reload s true tags) = Returned None /\
        unit_calls (trace env (Reload s true tags)) = map accepted items)
       \/ exists pre item post e,
            items = pre ++ item :: post /\
            unit_calls (trace env (Reload s true tags))
            = map accepted pre ++ [(UnitStatus.Name item, Some e)] /\
            value env (Reload s true tags) = Returned (Some e))).
Proof.
  intros bus_up. split; [| split].
  - intros tags Htags.
    destruct (Reload_tags_not_returned env s bus_up Htags) as [Hv Hw].
    split; [exact Hv |]. split; [exact Hw |].
    now apply Reload_tags_nil_iff.
  - now apply Reload_neither.
  - intros tags items Hlist. now apply Reload_all.
Qed.

Lemma Reload_error_policy_witness :
  (forall h, dial (steady no_such_unit h) = None) /\
  (forall e : error,
      value (steady no_such_unit) (Reload app false ["a"; "b"])
      <> Returned (Some e)) /\
  warnings (trace (steady no_such_unit) (Reload app false ["a"; "b"]))
  = ["Unit not found."] /\
  value (steady calm) (Reload app false ["a"; "b"]) = Returned None.
Proof.
  split; [reflexivity |].
  destruct (Reload_error_policy (steady no_such_unit) app (fun _ => eq_refl))
    as (Htags & _).
  destruct (Htags ["a"; "b"] ltac:(discriminate)) as (Hv & Hw & _).
  split; [exact Hv |]. split; [rewrite Hw; reflexivity |].
  destruct (Reload_error_policy (steady calm) app (fun _ => eq_refl))
    as (Hcalm & _).
  destruct (Hcalm ["a"; "b"] ltac:(discriminate)) as (_ & _ & Hnil).
  apply Hnil. reflexivity.
Defined.

(** C2 as stated fails in the branch with neither tags nor "all": when the
    manager rejects both calls, nothing is logged as a warning and the
    second call's error is what [Reload] returns. *)
Lemma Reload_neither_counterexample :
  dial no_such_unit = None /\
  call_errors (trace (steady no_such_unit) (Reload app false []))
  = ["Unit not found."; "Unit not found."] /\
  warnings (trace (steady no_such_unit) (Reload app false [])) = [] /\
  value (steady no_such_unit) (Reload app false [])
  = Returned (Some "Unit not found.").
Proof. repeat split. Qed.

(** ** Connecting to the bus *)

Lemma Stop_all_returns env s tags h :
  exists r : option error, fst (run env h (Stop s true tags)) = Returned r.
Proof.
  unfold Stop, Status. simpl.
  destruct (dial (env h)); simpl; [eauto |].
  destruct (dial _); simpl; [eauto |].
  destruct (list_units _ _ _); simpl; [| eauto].
  exists None. apply run_then_Ret_fst with (a := tt).
  apply for_each_returns.
  intros item h0. unfold wait_and_log. split_answers; reflexivity.
Qed.

Lemma Remove_value_cases env s :
  value env (Remove s) = Returned None \/
  value env (Remove s) = Returned (Some "remove failed").
Proof.
  destruct (Stop_all_returns env s []
              [Ev (Log InfoLevel ("Removing... " +++ Name s) []) tt])
    as [r Hstop].
  unfold value, Remove.
  set (stop := Stop s true []) in *. clearbody stop.
  rewrite run_bind_fst with (a := tt) by reflexivity.
  simpl.
  rewrite run_bind_fst with (a := r) by exact Hstop.
  rewrite run_bind_fst with (a := tt) by (destruct r; reflexivity).
  simpl.
  destruct (os_remove _ _) as [e1 |]; simpl; [| now left].
  destruct (os_remove _ _) as [e2 |]; simpl; auto.
Qed.

Lemma Remove_without_connection (env : Env) (s : Systemd) (e : error) :
  dial (env [Ev (Log InfoLevel ("Removing... " +++ Name s) []) tt]) = Some e ->
  exists r1 r2 : option error,
    run env [] (Remove s)
    = (Returned match r1, r2 with
                | Some _, Some _ => Some "remove failed"
                | _, _ => None
                end,
       [Ev (Log InfoLevel ("Removing... " +++ Name s) []) tt;
        Ev NewSystemConnection (Some e);
        Ev (Log WarnLevel e []) tt;
        Ev (OsRemove ("/etc/systemd/system/" +++ Name s +++ ".service")) r1;
        Ev (OsRemove ("/etc/systemd/system/" +++ Name s +++ "@.service")) r2]
       ++ match r1, r2 with
          | Some _, Some _ => []
          | _, _ => [Ev (Log InfoLevel ("Removed " +++ Name s) []) tt]
          end).
Proof.
  intros Hdial. unfold Remove, Stop. simpl. rewrite Hdial. simpl.
  match goal with
  | |- context [os_remove (env ?h1)
                  ("/etc/systemd/system/" +++ Name s +++ ".service")] =>
      set (r1 := os_remove (env h1)
                   ("/etc/systemd/system/" +++ Name s +++ ".service"))
  end.
  match goal with
  | |- context [os_remove (env ?h2)
                  ("/etc/systemd/system/" +++ Name s +++ "@.service")] =>
      set (r2 := os_remove (env h2)
                   ("/etc/systemd/system/" +++ Name s +++ "@.service"))
  end.
  exists r1, r2. clearbody r2. clearbody r1.
  destruct r1, r2; reflexivity.
Qed.

(** C3, amended.  Start, Stop, Kill, Restart and Status ask for the
    connection before anything else and, when it fails, do nothing else and
    return the connection error as it is.  Reload does so after writing one
    informational log line.  Install connects only after it has written the
    unit file; a connection error at that point is returned as it is.
    Remove, after its first log line, asks for the connection in its stop
    step; when that fails it logs the connection error as a warning,
    attempts both deletions all the same, and returns nil, with the line
    "Removed <name>" logged, unless both deletions fail, in which case it
    returns its own "remove failed"; whatever happens, Remove returns nil
    or "remove failed".  Enable and Disable never connect. *)
Theorem connection_policy
        (CreateUnit : bool -> string -> string -> string -> list string
                      -> result string)
        (s : Systemd) :
  (forall num tags,
      dials_first (Start s num tags) /\
      aborts_on_dial_failure Some (Start s num tags)) /\
  (forall all tags,
      dials_first (Stop s all tags) /\
      aborts_on_dial_failure Some (Stop s all tags) /\
      dials_first (Kill s all tags) /\
      aborts_on_dial_failure Some (Kill s all tags) /\
      dials_first (Restart s all tags) /\
      aborts_on_dial_failure Some (Restart s all tags)) /\
  (forall show,
      dials_first (Status s show) /\
      aborts_on_dial_failure Err (Status s show)) /\
  (forall all tags (env : Env) (e : error),
      dial (env [Ev (Log InfoLevel ("Reloading... " +++ Name s) []) tt])
      = Some e ->
      run env [] (Reload s all tags)
      = (Returned (Some e),
         [Ev (Log InfoLevel ("Reloading... " +++ Name s) []) tt;
          Ev NewSystemConnection (Some e)])) /\
  (forall multi args (env : Env) (e : error) execPath buf,
      (forall h, os_executable (env h) = Ok execPath) ->
      CreateUnit multi (Name s) (Description s) execPath args = Ok buf ->
      (forall h, os_write_file (env h) (UnitFile s multi) buf 420 = None) ->
      (forall h, dial (env h) = Some e) ->
      run env [] (Install CreateUnit s multi args)
      = (Returned (Some e),
         [Ev (Log InfoLevel ("Install... " +++ Name s) []) tt;
          Ev OsExecutable (Ok execPath);
          Ev (OsWriteFile (UnitFile s multi) buf 420) None;
          Ev NewSystemConnection (Some e)])) /\
  (forall env : Env,
      (value env (Remove s) = Returned None \/
       value env (Remove s) = Returned (Some "remove failed")) /\
      forall e : error,
        dial (env [Ev (Log InfoLevel ("Removing... " +++ Name s) []) tt])
        = Some e ->
        exists r1 r2 : option error,
          run env [] (Remove s)
          = (Returned match r1, r2 with
                      | Some _, Some _ => Some "remove failed"
                      | _, _ => None
                      end,
             [Ev (Log InfoLevel ("Removing... " +++ Name s) []) tt;
              Ev NewSystemConnection (Some e);
              Ev (Log WarnLevel e []) tt;
              Ev (OsRemove ("/etc/systemd/system/" +++ Name s +++ ".service"))
                 r1;
              Ev (OsRemove ("/etc/systemd/system/" +++ Name s +++ "@.service"))
                 r2]
             ++ match r1, r2 with
                | Some _, Some _ => []
                | _, _ => [Ev (Log InfoLevel ("Removed " +++ Name s) []) tt]
                end)) /\
  (forall tags (env : Env),
      dials (trace env (Enable s tags)) = [] /\
      dials (trace env (Disable s tags)) = []).
Proof.
  assert (Hfirst : forall (A : Type) (k : option error -> Prog A),
             dials_first (err <- call NewSystemConnection ;; k err)).
  { intros A k env. unfold trace. simpl. reflexivity. }
  assert (Habort : forall (A : Type) (failure : error -> A)
                          (k : option error -> Prog A),
             (forall e, k (Some e) = Ret (failure e)) ->
             aborts_on_dial_failure failure
               (err <- call NewSystemConnection ;; k err)).
  { intros A failure k Hk env e Hdial. simpl. rewrite Hdial, Hk.
    reflexivity. }
  split; [| split; [| split; [| split; [| split; [| split]]]]].
  - intros num tags. split; [apply Hfirst | now apply Habort].
  - intros all tags.
    repeat split; try apply Hfirst; now apply Habort.
  - intros show. split; [apply Hfirst | now apply Habort].
  - intros all tags env e Hdial. simpl. rewrite Hdial. reflexivity.
  - intros multi args env e execPath buf Hexe Hunit Hwrite Hdial.
    unfold Install. simpl. rewrite Hexe, Hunit. simpl.
    rewrite Hwrite. simpl. rewrite Hdial. reflexivity.
  - intros env. split; [apply Remove_value_cases |].
    intros e. apply Remove_without_connection.
  - intros tags env. split; apply Enable_Disable_no_manager.
Qed.

Lemma connection_policy_witness :
  dial (steady no_bus []) = Some bus_error /\
  run (steady no_bus) [] (Start app 2 [])
  = (Returned (Some bus_error), [Ev NewSystemConnection (Some bus_error)]) /\
  dial (steady no_bus [Ev (Log InfoLevel "Removing... app" []) tt])
  = Some bus_error /\
  exists r1 r2 : option error,
    run (steady no_bus) [] (Remove app)
    = (Returned match r1, r2 with
                | Some _, Some _ => Some "remove failed"
                | _, _ => None
                end,
       [Ev (Log InfoLevel "Removing... app" []) tt;
        Ev NewSystemConnection (Some bus_error);
        Ev (Log WarnLevel bus_error []) tt;
        Ev (OsRemove "/etc/systemd/system/app.service") r1;
        Ev (OsRemove "/etc/systemd/system/app@.service") r2]
       ++ match r1, r2 with
          | Some _, Some _ => []
          | _, _ => [Ev (Log InfoLevel "Removed app" []) tt]
          end).
Proof.
  split; [reflexivity |].
  destruct (connection_policy (fun _ _ _ _ _ => Ok "") app)
    as (Hstart & _ & _ & _ & _ & Hremove & _).
  destruct (Hstart 2 []) as (_ & Habort).
  split; [exact (Habort (steady no_bus) bus_error eq_refl) |].
  split; [reflexivity |].
  exact (proj2 (Hremove (steady no_bus)) bus_error eq_refl).
Defined.

(** C3 as stated fails for Remove: it logs before it connects, and when the
    connection fails it still deletes the unit files and returns nil, not
    the connection error. *)
Lemma Remove_without_bus_counterexample :
  dial no_bus = Some bus_error /\
  run (steady no_bus) [] (Remove app)
  = (Returned None,
     [Ev (Log InfoLevel "Removing... app" []) tt;
      Ev NewSystemConnection (Some bus_error);
      Ev (Log WarnLevel bus_error []) tt;
      Ev (OsRemove "/etc/systemd/system/app.service") None;
      Ev (OsRemove "/etc/systemd/system/app@.service") None;
      Ev (Log InfoLevel "Removed app" []) tt]) /\
  ~ dials_first (Remove app) /\
  ~ aborts_on_dial_failure Some (Remove app).
Proof.
  split; [reflexivity |]. split; [reflexivity |]. split.
  - intros H. specialize (H (steady no_bus)).
    apply (f_equal (fun o => match o with
                             | Some ev => dial_of ev
                             | None => []
                             end)) in H.
    vm_compute in H. discriminate.
  - intros H. specialize (H (steady no_bus) bus_error eq_refl).
    apply (f_equal fst) in H. vm_compute in H. discriminate.
Qed.

(** ** Remove *)

Lemma Stop_all_no_changes env s tags h :
  changes (snd (run env h (Stop s true tags))) = [].
Proof.
  unfold Stop, Status. simpl.
  destruct (dial (env h)); simpl; [reflexivity |].
  destruct (dial _); simpl; [reflexivity |].
  destruct (list_units _ _ _); simpl; [| reflexivity].
  rewrite run_then_Ret_snd. apply for_each_silent.
  intros item h0. unfold wait_and_log. split_answers; reflexivity.
Qed.

Lemma changes_nil_removals (t : list Event) :
  changes t = [] -> removals t = [].
Proof.
  unfold changes, removals.
  induction t as [| [X c x] rest IH]; [reflexivity |].
  simpl. intros H. apply app_eq_nil in H. destruct H as [Hc Hrest].
  rewrite IH by assumption. destruct c; simpl in *; congruence.
Qed.

Lemma Remove_run_shape (env : Env) (s : Systemd) :
  exists (pre : list Event) (r1 r2 : option error),
    run env [] (Remove s)
    = (Returned match r1, r2 with
                | Some _, Some _ => Some "remove failed"
                | _, _ => None
                end,
       pre ++ Ev (OsRemove (UnitFile s false)) r1
           :: Ev (OsRemove (UnitFile s true)) r2
           :: match r1, r2 with
              | Some _, Some _ => []
              | _, _ => [Ev (Log InfoLevel ("Removed " +++ Name s) []) tt]
              end) /\
    changes pre = [].
Proof.
  pose proof (Stop_all_no_changes env s []
                [Ev (Log InfoLevel ("Removing... " +++ Name s) []) tt])
    as Hquiet.
  destruct (Stop_all_returns env s []
              [Ev (Log InfoLevel ("Removing... " +++ Name s) []) tt])
    as [r Hstop].
  unfold Remove, UnitFile.
  set (stop := Stop s true []) in *. clearbody stop.
  simpl. rewrite run_bind, Hstop.
  destruct (run env [Ev (Log InfoLevel ("Removing... " +++ Name s) []) tt]
                stop) as [o S].
  simpl in *. clear Hstop o.
  destruct r as [e |]; simpl;
    match goal with
    | |- context [os_remove (env ?h1)
                    ("/etc/systemd/system/" +++ Name s +++ ".service")] =>
        destruct (os_remove (env h1)
                    ("/etc/systemd/system/" +++ Name s +++ ".service"))
          as [e1 |]
    end;
    match goal with
    | |- context [os_remove (env ?h2)
                    ("/etc/systemd/system/" +++ Name s +++ "@.service")] =>
        destruct (os_remove (env h2)
                    ("/etc/systemd/system/" +++ Name s +++ "@.service"))
          as [e2 |]
    end; unfold record; simpl;
    match goal with
    | |- exists _ _ _,
          (_, _ :: S ++ Ev (Log WarnLevel ?w []) tt
                   :: Ev ?c1 ?x1 :: Ev ?c2 ?x2 :: _) = _ /\ _ =>
        exists (Ev (Log InfoLevel ("Removing... " +++ Name s) []) tt
                :: S ++ [Ev (Log WarnLevel w []) tt]), x1, x2
    | |- exists _ _ _,
          (_, _ :: S ++ Ev ?c1 ?x1 :: Ev ?c2 ?x2 :: _) = _ /\ _ =>
        exists (Ev (Log InfoLevel ("Removing... " +++ Name s) []) tt :: S),
               x1, x2
    end;
    (split; [simpl; now rewrite <- ?app_assoc |]);
    unfold changes in *; simpl; rewrite ?flat_map_app, Hquiet; reflexivity.
Qed.

(** C4. [Remove] attempts exactly two deletions, whatever its stop step
    did: the single-instance unit file, then the templated unit file.  It
    returns nil if and only if at least one of the two succeeded, and the
    error "remove failed" if and only if both failed. *)
Theorem Remove_succeeds_iff_one_deletion (env : Env) (s : Systemd) :
  exists r1 r2 : option error,
    removals (trace env (Remove s))
    = [("/etc/systemd/system/" +++ Name s +++ ".service", r1);
       ("/etc/systemd/system/" +++ Name s +++ "@.service", r2)] /\
    (value env (Remove s) = Returned None <-> r1 = None \/ r2 = None) /\
    (value env (Remove s) = Returned (Some "remove failed")
     <-> r1 <> None /\ r2 <> None).
Proof.
  destruct (Remove_run_shape env s) as (pre & r1 & r2 & Hrun & Hpre).
  exists r1, r2. unfold value, trace. rewrite Hrun. simpl.
  unfold removals. rewrite flat_map_app.
  fold (removals pre). rewrite (changes_nil_removals pre Hpre).
  unfold UnitFile.
  destruct r1 as [e1 |], r2 as [e2 |]; simpl;
    (split; [reflexivity |]);
    split; split; try tauto; try discriminate;
    try (intros [? | ?]; discriminate);
    try (intros [? ?]; congruence);
    try (intros _; split; discriminate).
Qed.

(** ** Enable and Disable *)

Lemma map_flat_map (A B C : Type) (f : B -> C) (g : A -> list B) (l : list A) :
  map f (flat_map g l) = flat_map (fun x => map f (g x)) l.
Proof.
  induction l as [| x rest IH]; simpl; [reflexivity |].
  now rewrite map_app, IH.
Qed.

Lemma map_flat_map_flat_map (A B C D : Type) (f : A -> list B)
      (g : B -> list C) (k : C -> D) (l : list A) :
  map k (flat_map g (flat_map f l))
  = flat_map (fun x => map k (flat_map g (f x))) l.
Proof.
  induction l as [| x rest IH]; simpl; [reflexivity |].
  now rewrite flat_map_app, map_app, IH.
Qed.

Section EnableFacts.

Variable env : Env.
Variable s : Systemd.

Lemma Enable_logs tags :
  logs (trace env (Enable s tags))
  = map symlink_line (symlinks (trace env (Enable s tags))).
Proof.
  unfold symlinks, logs. rewrite map_flat_map.
  unfold trace, Enable, fileExists. simpl.
  destruct (os_stat (env []) _) as [[|] | e0]; simpl;
    try (destruct (os_stat _ _) as [[|] | e1]; simpl; trivial;
         destruct (os_symlink _ _ _); reflexivity).
  rewrite run_then_Ret_snd. apply for_each_agree. intros tag h. simpl.
  destruct (os_symlink _ _ _); reflexivity.
Qed.

Lemma Enable_templated tags :
  os_stat (env []) ("/etc/systemd/system/" +++ Name s +++ "@.service")
  = Ok false ->
  value env (Enable s tags) = Returned None /\
  map fst (symlinks (trace env (Enable s tags)))
  = map (fun tag => ("/etc/systemd/system/" +++ Name s +++ "@.service",
                     "/etc/systemd/system/multi-user.target.wants/"
                     +++ Name s +++ "@" +++ tag +++ ".service"))
        (match tags with [] => ["default"] | _ => tags end).
Proof.
  intros Hstat. unfold value, trace, Enable, fileExists. simpl.
  rewrite Hstat. simpl. rewrite run_then_Ret_snd.
  split.
  { apply run_then_Ret_fst with (a := tt). apply for_each_returns.
    intros tag h. simpl. destruct (os_symlink _ _ _); reflexivity. }
  replace (if (length tags =? 0)%nat then ["default"] else tags)
    with (match tags with [] => ["default"] | _ => tags end)
    by (destruct tags; reflexivity).
  unfold symlinks. rewrite map_flat_map, <- flat_map_singleton.
  apply for_each_observe; intros tag h; simpl;
    destruct (os_symlink _ _ _); reflexivity.
Qed.

End EnableFacts.

(** C7. [Enable] looks at the templated unit file first.  When it is there
    (a regular file), one symlink per tag is attempted from it into the
    wants directory, exactly one, for tag ["default"], when no tags are
    given.  Otherwise, when the single-instance unit file is there, exactly
    one symlink from it is attempted.  Otherwise nothing is linked and the
    error "service is not installed" is returned.  In the two branches with
    a unit file [Enable] returns nil whatever the symlinks did; every
    symlink attempt is logged, a failed one at error severity with its
    error. *)
Theorem Enable_policy (env : Env) (s : Systemd) (tags : list string) :
  let templated := "/etc/systemd/system/" +++ Name s +++ "@.service" in
  let single := "/etc/systemd/system/" +++ Name s +++ ".service" in
  let wants := "/etc/systemd/system/multi-user.target.wants/" in
  let stat1 := os_stat (env []) templated in
  let stat2 := os_stat (env [Ev (OsStat templated) stat1]) single in
  let t := trace env (Enable s tags) in
  logs t = map symlink_line (symlinks t) /\
  (stat1 = Ok false ->
   value env (Enable s tags) = Returned None /\
   map fst (symlinks t)
   = map (fun tag => (templated, wants +++ Name s +++ "@" +++ tag +++ ".service"))
         (match tags with [] => ["default"] | _ => tags end)) /\
  (stat1 <> Ok false -> stat2 = Ok false ->
   value env (Enable s tags) = Returned None /\
   map fst (symlinks t) = [(single, wants +++ Name s +++ ".service")]) /\
  (stat1 <> Ok false -> stat2 <> Ok false ->
   value env (Enable s tags)
   = Returned (Some "service is not installed") /\
   symlinks t = []).
Proof.
  intros templated single wants stat1 stat2 t.
  split; [apply Enable_logs |]. split; [apply Enable_templated |].
  unfold t, value, trace, Enable, fileExists. simpl.
  fold templated single. fold stat1.
  split.
  - intros Hno Hyes.
    destruct stat1 as [[|] | e1] eqn:H1; try congruence; simpl;
      fold stat2; rewrite Hyes; simpl;
      destruct (os_symlink _ _ _); auto.
  - intros Hno Hno2.
    destruct stat1 as [[|] | e1] eqn:H1; try congruence; simpl;
      fold stat2; destruct stat2 as [[|] | e2]; try congruence; auto.
Qed.

Lemma Enable_policy_witness :
  os_stat (steady templated_only []) "/etc/systemd/system/app@.service"
  = Ok false /\
  value (steady templated_only) (Enable app []) = Returned None /\
  map fst (symlinks (trace (steady templated_only) (Enable app [])))
  = [("/etc/systemd/system/app@.service",
      "/etc/systemd/system/multi-user.target.wants/app@default.service")].
Proof.
  split; [reflexivity |].
  destruct (Enable_policy (steady templated_only) app []) as (_ & Htempl & _).
  exact (Htempl eq_refl).
Defined.

Section DisableFacts.

Variable env : Env.
Variable s : Systemd.

Lemma Disable_returns_nil tags :
  value env (Disable s tags) = Returned None.
Proof.
  unfold value, Disable.
  destruct (0 <? length tags)%nat.
  - apply run_then_Ret_fst with (a := tt). apply for_each_returns.
    intros tag h. simpl. destruct (os_remove _ _); reflexivity.
  - simpl. destruct (os_remove (env []) _); simpl;
      destruct (os_remove _ _); reflexivity.
Qed.

Lemma Disable_without_tags :
  map fst (removals (trace env (Disable s [])))
  = ["/etc/systemd/system/multi-user.target.wants/" +++ Name s
     +++ "@default.service";
     "/etc/systemd/system/multi-user.target.wants/" +++ Name s
     +++ ".service"] /\
  logs (trace env (Disable s []))
  = map (removal_line WarnLevel)
        (removal_failures (trace env (Disable s []))).
Proof.
  unfold trace, Disable. simpl.
  destruct (os_remove (env []) _); simpl;
    destruct (os_remove _ _); simpl; split; reflexivity.
Qed.

Lemma Disable_with_tags tags :
  tags <> [] ->
  map fst (removals (trace env (Disable s tags)))
  = map (fun tag => "/etc/systemd/system/multi-user.target.wants/"
                    +++ Name s +++ "@" +++ tag +++ ".service") tags /\
  logs (trace env (Disable s tags))
  = map (removal_line ErrorLevel)
        (removal_failures (trace env (Disable s tags))).
Proof.
  intros Htags.
  assert (Hlen : (0 <? length tags)%nat = true)
    by (destruct tags; [congruence | reflexivity]).
  unfold trace, Disable. rewrite Hlen, run_then_Ret_snd. split.
  - unfold removals. rewrite map_flat_map, <- flat_map_singleton.
    apply for_each_observe; intros tag h; simpl;
      destruct (os_remove _ _); reflexivity.
  - unfold removal_failures, removals, logs.
    rewrite map_flat_map_flat_map.
    apply for_each_agree. intros tag h. simpl.
    destruct (os_remove _ _); reflexivity.
Qed.

End DisableFacts.

(** C8, amended.  [Disable] always returns nil.  Without tags it attempts
    exactly two deletions in the wants directory, whatever is there: the
    link [<name>@default.service], then the link [<name>.service]; a failed
    deletion is logged as a warning.  With tags it attempts exactly one
    deletion per tag, of the link [<name>@<tag>.service], in tag order; a
    failed deletion is logged at error severity.  No failure is returned. *)
Theorem Disable_policy (env : Env) (s : Systemd) (tags : list string) :
  let wants := "/etc/systemd/system/multi-user.target.wants/" in
  let t := trace env (Disable s tags) in
  value env (Disable s tags) = Returned None /\
  (tags = [] ->
   map fst (removals t)
   = [wants +++ Name s +++ "@default.service";
      wants +++ Name s +++ ".service"] /\
   logs t = map (removal_line WarnLevel) (removal_failures t)) /\
  (tags <> [] ->
   map fst (removals t)
   = map (fun tag => wants +++ Name s +++ "@" +++ tag +++ ".service") tags /\
   length (removals t) = length tags /\
   logs t = map (removal_line ErrorLevel) (removal_failures t)).
Proof.
  intros wants t. split; [apply Disable_returns_nil |]. split.
  - intros ->. apply Disable_without_tags.
  - intros Htags.
    destruct (Disable_with_tags env s Htags) as [Hnames Hlogs].
    repeat split; trivial.
    rewrite <- (length_map fst). unfold t. rewrite Hnames.
    apply length_map.
Qed.

Lemma Disable_policy_witness :
  map fst (removals (trace (steady nothing_to_remove) (Disable app [])))
  = ["/etc/systemd/system/multi-user.target.wants/app@default.service";
     "/etc/systemd/system/multi-user.target.wants/app.service"] /\
  map fst (removals (trace (steady nothing_to_remove)
                           (Disable app ["blue"; "green"])))
  = ["/etc/systemd/system/multi-user.target.wants/app@blue.service";
     "/etc/systemd/system/multi-user.target.wants/app@green.service"].
Proof.
  split.
  - destruct (Disable_policy (steady nothing_to_remove) app [])
      as (_ & Hnone & _).
    exact (proj1 (Hnone eq_refl)).
  - destruct (Disable_policy (steady nothing_to_remove) app ["blue"; "green"])
      as (_ & _ & Htags).
    exact (proj1 (Htags ltac:(discriminate))).
Defined.

(** C8 as stated fails with tags: a failed deletion is logged at error
    severity there, and no warning is written. *)
Lemma Disable_tags_counterexample :
  removal_failures (trace (steady nothing_to_remove) (Disable app ["blue"]))
  = ["no such file or directory"] /\
  logs (trace (steady nothing_to_remove) (Disable app ["blue"]))
  = [(ErrorLevel, "Failed to remove symlink",
      [("target",
        "/etc/systemd/system/multi-user.target.wants/%s@%s.service");
       ("error", "no such file or directory")])] /\
  warnings (trace (steady nothing_to_remove) (Disable app ["blue"])) = [] /\
  logs (trace (steady nothing_to_remove) (Disable app ["blue"]))
  <> map (removal_line WarnLevel)
         (removal_failures
            (trace (steady nothing_to_remove) (Disable app ["blue"]))).
Proof.
  repeat split. vm_compute. discriminate.
Qed.

(** ** The privilege pre-check *)

Section PreRun.

Variable CreateUnit :
  bool -> string -> string -> string -> list string -> result string.
Variable env : Env.
Variable s : Systemd.

Lemma persistentPreRunE_Ok (u : User.t) :
  user_current (env []) = Ok u ->
  run env [] persistentPreRunE
  = (Returned
       (if ((User.Gid u =? "0")%string || (User.Uid u =? "0")%string)%bool
        then None else Some "root privileges required"),
     [Ev UserCurrent (Ok u)]).
Proof.
  intros Hu. unfold persistentPreRunE. simpl. rewrite Hu. simpl.
  destruct ((User.Gid u =? "0")%string || (User.Uid u =? "0")%string)%bool;
    reflexivity.
Qed.

Lemma PersistentPreRunE_all (v : Verb) : PersistentPreRunE v = persistentPreRunE.
Proof. destruct v; reflexivity. Qed.

Lemma execute_run (v : Verb) :
  run env [] (execute CreateUnit s v)
  = match fst (run env [] persistentPreRunE) with
    | Returned (Some e) =>
        (Returned (Some e), snd (run env [] persistentPreRunE))
    | Returned None =>
        (fst (run env (snd (run env [] persistentPreRunE))
                  (RunE CreateUnit s v)),
         snd (run env [] persistentPreRunE)
         ++ snd (run env (snd (run env [] persistentPreRunE))
                     (RunE CreateUnit s v)))
    | NeverReturns => (NeverReturns, snd (run env [] persistentPreRunE))
    end.
Proof.
  unfold execute. rewrite PersistentPreRunE_all, run_bind. simpl app.
  destruct (fst (run env [] persistentPreRunE)) as [[e |] |]; simpl.
  - now rewrite app_nil_r.
  - reflexivity.
  - reflexivity.
Qed.

End PreRun.

(** C10, amended.  For every verb, the status and unit verbs included, the
    user lookup of the pre-check is the first thing that happens.  When the
    lookup succeeds, the check passes exactly when the user's Uid is ["0"]
    or the user's Gid is ["0"]; the verb's body then runs after it.  When
    the lookup succeeds and the check does not pass, the fixed error
    "root privileges required" is returned and the body does not run.  When
    the lookup itself fails, its error is returned instead and the body does
    not run either. *)
Theorem privilege_precheck
        (CreateUnit : bool -> string -> string -> string -> list string
                      -> result string)
        (env : Env) (s : Systemd) (v : Verb) :
  hd_error (trace env (execute CreateUnit s v))
  = Some (Ev UserCurrent (user_current (env []))) /\
  (forall u : User.t,
      user_current (env []) = Ok u ->
      (value env persistentPreRunE = Returned None
       <-> User.Uid u = "0" \/ User.Gid u = "0") /\
      (User.Uid u = "0" \/ User.Gid u = "0" ->
       run env [] (execute CreateUnit s v)
       = (fst (run env [Ev UserCurrent (Ok u)] (RunE CreateUnit s v)),
          Ev UserCurrent (Ok u)
          :: snd (run env [Ev UserCurrent (Ok u)] (RunE CreateUnit s v)))) /\
      (User.Uid u <> "0" -> User.Gid u <> "0" ->
       run env [] (execute CreateUnit s v)
       = (Returned (Some "root privileges required"),
          [Ev UserCurrent (Ok u)]))) /\
  (forall e : error,
      user_current (env []) = Err e ->
      run env [] (execute CreateUnit s v)
      = (Returned (Some e), [Ev UserCurrent (Err e)])).
Proof.
  split; [| split].
  - unfold trace, execute. rewrite PersistentPreRunE_all.
    reflexivity.
  - intros u Hu.
    pose proof (persistentPreRunE_Ok env Hu) as Hpre.
    assert (Hpass :
      ((User.Gid u =? "0")%string || (User.Uid u =? "0")%string)%bool = true
      <-> User.Uid u = "0" \/ User.Gid u = "0").
    { rewrite orb_true_iff, !String.eqb_eq. tauto. }
    split; [| split].
    + unfold value. rewrite Hpre. simpl. rewrite <- Hpass.
      destruct (_ || _)%bool; split; intros; try discriminate; reflexivity.
    + intros Hroot. apply Hpass in Hroot.
      rewrite execute_run, Hpre. simpl. rewrite Hroot. reflexivity.
    + intros Huid Hgid.
      assert (Hfail :
        ((User.Gid u =? "0")%string || (User.Uid u =? "0")%string)%bool
        = false).
      { apply orb_false_iff. now rewrite !String.eqb_neq. }
      rewrite execute_run, Hpre. simpl. rewrite Hfail. reflexivity.
  - intros e He. rewrite execute_run. unfold persistentPreRunE. simpl.
    rewrite He. reflexivity.
Qed.

Lemma privilege_precheck_witness :
  user_current (steady group_root [])
  = Ok (User.Build "1000" "0" "dev" "Dev" "/home/dev") /\
  run (steady group_root) [] (execute plain_unit app statusCmd)
  = (Returned None,
     [Ev UserCurrent (Ok (User.Build "1000" "0" "dev" "Dev" "/home/dev"));
      Ev NewSystemConnection None;
      Ev (ListUnitsByPatterns [] ["app*"]) (Ok [])]) /\
  user_current (steady unprivileged [])
  = Ok (User.Build "1000" "1000" "dev" "Dev" "/home/dev") /\
  run (steady unprivileged) [] (execute plain_unit app (unitCmd true false []))
  = (Returned (Some "root privileges required"),
     [Ev UserCurrent (Ok (User.Build "1000" "1000" "dev" "Dev" "/home/dev"))]).
Proof.
  split; [reflexivity |]. split; [| split; [reflexivity |]].
  - destruct (privilege_precheck plain_unit (steady group_root) app statusCmd)
      as (_ & Hok & _).
    destruct (Hok _ eq_refl) as (_ & Hpass & _).
    rewrite (Hpass (or_intror eq_refl)). reflexivity.
  - destruct (privilege_precheck plain_unit (steady unprivileged) app
                (unitCmd true false [])) as (_ & Hok & _).
    destruct (Hok _ eq_refl) as (_ & _ & Hfail).
    apply Hfail; discriminate.
Defined.

(** C10 as stated fails when the user lookup itself fails: the pre-check
    does not pass, and what it returns is the lookup's error, not the fixed
    "root privileges required". *)
Lemma precheck_lookup_counterexample :
  user_current unknown_user = Err "user: unknown userid 1000" /\
  run (steady unknown_user) [] persistentPreRunE
  = (Returned (Some "user: unknown userid 1000"),
     [Ev UserCurrent (Err "user: unknown userid 1000")]) /\
  value (steady unknown_user) (execute plain_unit app statusCmd)
  = Returned (Some "user: unknown userid 1000") /\
  value (steady unknown_user) (execute plain_unit app statusCmd)
  <> Returned (Some "root privileges required").
Proof.
  repeat split. vm_compute. discriminate.
Qed.

(** ** The theorems at work *)

Lemma Status_show_and_result_witness :
  dial (steady two_units []) = None /\
  value (steady two_units) (Status app true)
  = Returned (Ok [unit_of "app@1.service" "running";
                  unit_of "app@2.service" "dead"]) /\
  map (fun l => fst (fst l)) (logs (trace (steady two_units) (Status app true)))
  = [InfoLevel; WarnLevel] /\
  logs (trace (steady two_units) (Status app false)) = [].
Proof.
  split; [reflexivity |].
  destruct (Status_show_and_result (steady two_units) app) as (Hquiet & Hshow).
  destruct (Hshow true _ eq_refl eq_refl) as (Hvalue & _ & _ & Hlevels).
  split; [exact Hvalue |]. split; [| exact Hquiet].
  exact (proj2 (Hlevels eq_refl)).
Defined.

(** ** The "all" branch of Stop, Restart and Kill *)

Section AllBranch.

Variable env : Env.
Variable s : Systemd.
Hypothesis bus_up : forall h, dial (env h) = None.

Lemma all_loop_names (body : UnitStatus.t -> Prog unit) :
  always_returns env body ->
  (forall item h,
      unit_names (snd (run env h (body item))) = [UnitStatus.Name item]) ->
  forall items h,
    unit_names (snd (run env h (for_each items body)))
    = map UnitStatus.Name items.
Proof.
  intros Hret Hbody items h. unfold unit_names.
  rewrite <- flat_map_singleton. now apply for_each_observe.
Qed.

(** X1. With the "all" flag the targets are the units the manager lists for
    [<name>*], by their listed names and in listed order; tags are ignored,
    a second connection is made for the listing, and nil is returned
    whatever the manager answers to the single calls. *)
Theorem all_flag_targets_listed_units (tags : list string)
        (items : list UnitStatus.t) :
  (forall h, list_units (env h) [] [Name s +++ "*"] = Ok items) ->
  (value env (Stop s true tags) = Returned None /\
   unit_names (trace env (Stop s true tags)) = map UnitStatus.Name items /\
   dials (trace env (Stop s true tags)) = [None; None]) /\
  (value env (Restart s true tags) = Returned None /\
   unit_names (trace env (Restart s true tags)) = map UnitStatus.Name items /\
   dials (trace env (Restart s true tags)) = [None; None]) /\
  (value env (Kill s true tags) = Returned None /\
   unit_names (trace env (Kill s true tags)) = map UnitStatus.Name items /\
   dials (trace env (Kill s true tags)) = [None; None]).
Proof.
  intros Hlist.
  repeat split;
    unfold value, trace, Stop, Restart, Kill, Status; simpl;
    rewrite bus_up; simpl; rewrite bus_up; simpl; rewrite Hlist; simpl;
    rewrite ?run_then_Ret_snd;
    try (apply run_then_Ret_fst with (a := tt); apply for_each_returns;
         intros item h; unfold wait_and_log; split_answers; reflexivity);
    try (apply all_loop_names; intros item h; unfold wait_and_log;
         split_answers; reflexivity);
    do 2 f_equal; apply for_each_silent; intros item h; unfold wait_and_log;
    split_answers; reflexivity.
Qed.

(** X2. When the listing fails, the four operations with the "all" flag return
    the listing's error as it is and ask the manager for nothing else. *)
Theorem all_flag_listing_error (tags : list string) (e : error) :
  (forall h, list_units (env h) [] [Name s +++ "*"] = Err e) ->
  (value env (Stop s true tags) = Returned (Some e) /\
   unit_names (trace env (Stop s true tags)) = []) /\
  (value env (Restart s true tags) = Returned (Some e) /\
   unit_names (trace env (Restart s true tags)) = []) /\
  (value env (Kill s true tags) = Returned (Some e) /\
   unit_names (trace env (Kill s true tags)) = []) /\
  (value env (Reload s true tags) = Returned (Some e) /\
   unit_names (trace env (Reload s true tags)) = []).
Proof.
  intros Hlist.
  repeat split;
    unfold value, trace, Stop, Restart, Kill, Reload, Status; simpl;
    rewrite bus_up; simpl; rewrite bus_up; simpl; rewrite Hlist;
    reflexivity.
Qed.

End AllBranch.

Lemma all_flag_targets_listed_units_witness :
  (forall h, dial (steady two_units h) = None) /\
  unit_names (trace (steady two_units) (Stop app true ["ignored"]))
  = ["app@1.service"; "app@2.service"] /\
  unit_names (trace (steady two_units) (Kill app true []))
  = ["app@1.service"; "app@2.service"].
Proof.
  split; [reflexivity |].
  destruct (all_flag_targets_listed_units (steady two_units) app
              (fun _ => eq_refl) ["ignored"] (fun _ => eq_refl))
    as ((_ & Hstop & _) & _).
  destruct (all_flag_targets_listed_units (steady two_units) app
              (fun _ => eq_refl) [] (fun _ => eq_refl))
    as (_ & _ & (_ & Hkill & _)).
  split; [exact Hstop | exact Hkill].
Defined.

Lemma all_flag_listing_error_witness :
  (forall h, dial (steady no_listing h) = None) /\
  value (steady no_listing) (Restart app true [])
  = Returned (Some "Access denied") /\
  unit_names (trace (steady no_listing) (Restart app true [])) = [].
Proof.
  split; [reflexivity |].
  destruct (all_flag_listing_error (steady no_listing) app
              (fun _ => eq_refl) [] (e := "Access denied") (fun _ => eq_refl))
    as (_ & Hrestart & _).
  exact Hrestart.
Defined.

(** ** Rejected calls and the completion channel *)

Lemma accepted_calls_unit_calls (t : list Event) :
  accepted_calls t
  = length (flat_map (fun p : string * option error =>
                        match snd p with
                        | Some _ => []
                        | None => [tt]
                        end) (unit_calls t)).
Proof.
  unfold accepted_calls, unit_calls.
  induction t as [| [X c x] t IH]; [reflexivity |].
  simpl. rewrite flat_map_app, !length_app, IH.
  f_equal. destruct c; simpl; try reflexivity; destruct x; reflexivity.
Qed.

Section Loops.

Variable env : Env.
Variable s : Systemd.
Hypothesis bus_up : forall h, dial (env h) = None.

(** The tags loop of [Reload], started with no job pending, receives once
    per accepted call. *)
Lemma reload_tags_loop_waits (tags : list string) :
  forall h,
    pending h = 0%nat ->
    waits (snd (run env h (for_each tags (reload_tags_body s))))
    = accepted_calls (snd (run env h (for_each tags (reload_tags_body s)))).
Proof.
  induction tags as [| tag rest IH]; intros h Hpending; [reflexivity |].
  cbn [for_each]. rewrite run_bind.
  destruct (@reload_tags_body_run env s tag h Hpending)
    as [(v & Hrun) | (e & Hrun)]; rewrite Hrun; cbn [fst snd];
    [| reflexivity].
  assert (Hp : pending
                 (h ++ [Ev (ReloadOrRestartUnit (instance s tag) "fail") None;
                        Ev Recv v;
                        Ev (Log (result_level v)
                                ("Reloaded [ " +++ instance s tag
                                 +++ " ] " +++ v) []) tt]) = 0%nat).
  { unfold pending in *. rewrite fold_left_app, Hpending. reflexivity. }
  specialize (IH _ Hp). unfold waits, accepted_calls in *.
  rewrite !flat_map_app, !length_app, IH. reflexivity.
Qed.

(** X3. In the loops of Start, Stop and Restart a call the manager rejects is
    logged as a warning and skipped: the operation does not wait on the
    completion channel for it, carries on with the next unit and returns
    nil.  It waits exactly once per accepted call.  For the count loop of
    Start this is for a count below the largest [int]. *)
Theorem rejected_calls_are_skipped (tags : list string) (num : Z) :
  (tags <> [] ->
   forall op : ManagerOp,
     op <> opReload ->
     value env (lifecycle s op tags) = Returned None /\
     warnings (trace env (lifecycle s op tags))
     = call_errors (trace env (lifecycle s op tags)) /\
     waits (trace env (lifecycle s op tags))
     = accepted_calls (trace env (lifecycle s op tags))) /\
  (0 < num ->
   num < int_max ->
   value env (Start s num tags) = Returned None /\
   warnings (trace env (Start s num tags))
   = call_errors (trace env (Start s num tags)) /\
   waits (trace env (Start s num tags))
   = accepted_calls (trace env (Start s num tags))).
Proof.
  split.
  - intros Htags op Hop.
    assert (Hlen : (0 <? length tags)%nat = true)
      by (destruct tags; [congruence | reflexivity]).
    destruct op; try congruence;
      unfold value, trace, waits, accepted_calls, lifecycle,
        Start, Stop, Restart;
      rewrite Hlen; simpl; rewrite bus_up; simpl;
      rewrite run_then_Ret_snd;
      (split;
       [apply run_then_Ret_fst with (a := tt); apply for_each_returns;
        intros tag h; unfold start_body, wait_and_log; split_answers;
        reflexivity |]);
      (split; [| f_equal]);
      apply for_each_agree; intros tag h; unfold start_body, wait_and_log;
      split_answers; reflexivity.
  - intros Hnum Hmax.
    destruct (count_loop_below_int_max (num := num) ltac:(lia))
      as [_ Hclosed].
    apply Z.ltb_lt in Hnum.
    unfold value, trace, waits, accepted_calls, Start.
    rewrite Hnum. simpl. rewrite bus_up. simpl.
    rewrite run_then_Ret_snd.
    pose proof (start_body_returns env
                  (fun i => Name s +++ "@" +++ Itoa i +++ ".service"))
      as Hret.
    split.
    { apply run_then_Ret_fst with (a := tt).
      rewrite (count_loop_fst Hret), Hclosed. reflexivity. }
    split; [| f_equal];
      apply (count_loop_agree Hret); intros i h;
      unfold start_body, wait_and_log; split_answers; reflexivity.
Qed.

(** X4. The tags loop of Reload has no way past a rejected call.  When the
    manager accepts every call, every tag is processed and nil is returned.
    Otherwise, at the first rejected call, Reload logs the warning and then
    waits on the completion channel, where no job is pending: it never
    returns, and the tags after the rejected one are not sent to the
    manager.  Either way it has received once per accepted call. *)
Theorem Reload_tags_hangs_after_rejection (tags : list string) :
  tags <> [] ->
  let t := trace env (Reload s false tags) in
  waits t = accepted_calls t /\
  ((value env (Reload s false tags) = Returned None /\
    call_errors t = [] /\
    unit_names t
    = map (fun tag => Name s +++ "@" +++ tag +++ ".service") tags)
   \/ exists pre tag post e,
        tags = pre ++ tag :: post /\
        value env (Reload s false tags) = NeverReturns /\
        unit_calls t
        = map (fun tag => (Name s +++ "@" +++ tag +++ ".service", None)) pre
          ++ [(Name s +++ "@" +++ tag +++ ".service", Some e)] /\
        warnings t = [e] /\
        waits t = length pre).
Proof.
  intros Htags t.
  assert (Hwaits : waits t = accepted_calls t).
  { assert (Hlen : (0 <? length tags)%nat = true)
      by (destruct tags; [congruence | reflexivity]).
    unfold t, trace, Reload. rewrite Hlen. simpl. rewrite bus_up. simpl.
    rewrite run_then_Ret_snd.
    match goal with
    | |- context [run env ?h' (for_each tags ?body)] =>
        change body with (reload_tags_body s);
        exact (@reload_tags_loop_waits tags h' eq_refl)
    end. }
  split; [exact Hwaits |].
  assert (Hnone : forall l : list string,
             flat_map (fun p : string * option error =>
                         match snd p with
                         | Some e => [e]
                         | None => []
                         end)
                      (map (fun tag => (instance s tag, @None error)) l) = []).
  { induction l as [| x l IH]; [reflexivity | exact IH]. }
  assert (Hmarks : forall l : list string,
             length (flat_map (fun p : string * option error =>
                                 match snd p with
                                 | Some _ => []
                                 | None => [tt]
                                 end)
                              (map (fun tag => (instance s tag, @None error)) l))
             = length l).
  { induction l as [| x l IH]; [reflexivity | simpl; now rewrite IH]. }
  destruct (Reload_tags_run env s bus_up Htags)
    as [Hw [(Hv & Hc & Hn) | (pre & tg & post & e & Hi & Hc & Hn & Hv)]];
    fold t in Hw, Hc, Hn.
  - left. split; [exact Hv |]. split; [| exact Hn].
    rewrite call_errors_unit_calls, Hc. apply Hnone.
  - right. exists pre, tg, post, e.
    split; [exact Hi |]. split; [exact Hv |]. split; [exact Hc |]. split.
    + rewrite Hw, call_errors_unit_calls, Hc, flat_map_app, Hnone.
      reflexivity.
    + rewrite Hwaits, accepted_calls_unit_calls, Hc, flat_map_app,
        length_app, Hmarks. simpl. lia.
Qed.

End Loops.

Lemma rejected_calls_are_skipped_witness :
  (forall h, dial (steady picky_manager h) = None) /\
  warnings (trace (steady picky_manager) (Start app 0 ["a"; "b"; "c"]))
  = ["Unit app@b.service not found."] /\
  waits (trace (steady picky_manager) (Start app 0 ["a"; "b"; "c"])) = 2%nat /\
  unit_names (trace (steady picky_manager) (Start app 0 ["a"; "b"; "c"]))
  = ["app@a.service"; "app@b.service"; "app@c.service"] /\
  value (steady picky_manager) (Start app 3 []) = Returned None.
Proof.
  split; [reflexivity |].
  destruct (rejected_calls_are_skipped (steady picky_manager) app
              (fun _ => eq_refl) ["a"; "b"; "c"] 0) as (Htags & _).
  destruct (Htags ltac:(discriminate) opStart ltac:(discriminate))
    as (_ & Hwarn & Hwaits).
  unfold lifecycle in Hwarn, Hwaits.
  split; [rewrite Hwarn; reflexivity |].
  split; [rewrite Hwaits; reflexivity |]. split; [reflexivity |].
  destruct (rejected_calls_are_skipped (steady picky_manager) app
              (fun _ => eq_refl) [] 3) as (_ & Hcount).
  exact (proj1 (Hcount ltac:(lia) ltac:(unfold int_max; lia))).
Defined.

Lemma Reload_tags_hangs_after_rejection_witness :
  (forall h, dial (steady picky_reloader h) = None) /\
  value (steady picky_reloader) (Reload app false ["a"; "b"; "c"])
  = NeverReturns /\
  unit_names (trace (steady picky_reloader) (Reload app false ["a"; "b"; "c"]))
  = ["app@a.service"; "app@b.service"] /\
  waits (trace (steady picky_reloader) (Reload app false ["a"; "b"; "c"]))
  = accepted_calls
      (trace (steady picky_reloader) (Reload app false ["a"; "b"; "c"])) /\
  waits (trace (steady picky_reloader) (Reload app false ["a"; "b"; "c"]))
  = 1%nat.
Proof.
  split; [reflexivity |]. split; [reflexivity |]. split; [reflexivity |].
  split; [| reflexivity].
  exact (proj1 (Reload_tags_hangs_after_rejection (steady picky_reloader) app
                  (fun _ => eq_refl) (tags := ["a"; "b"; "c"])
                  ltac:(discriminate))).
Defined.

(** X5. Without the "all" flag and without a count, Start, Stop, Restart and
    Reload return an error in two cases only: the connection failed, and
    that is the error returned; or no tags were given and the manager
    rejected both the bare name and the [@default] instance, and the error
    of the second call is returned. *)
Theorem lifecycle_error_iff (env : Env) (s : Systemd) (op : ManagerOp)
        (tags : list string) (e : error) :
  value env (lifecycle s op tags) = Returned (Some e) <->
  dials (trace env (lifecycle s op tags)) = [Some e] \/
  (tags = [] /\
   exists e1 : error,
     unit_calls (trace env (lifecycle s op tags))
     = [(Name s +++ ".service", Some e1);
        (Name s +++ "@default.service", Some e)]).
Proof.
  destruct (0 <? length tags)%nat eqn:Hlen.
  - assert (Htags : tags <> []) by (intros ->; discriminate).
    destruct op;
      unfold value, trace, lifecycle, Start, Stop, Restart, Reload;
      rewrite Hlen; simpl;
      match goal with
      | |- context [dial (env ?h)] => destruct (dial (env h)) as [e0 |]
      end; simpl;
      (split;
       [ intros Hv;
         try (exfalso; revert Hv; apply then_Ret_not_error);
         injection Hv as ->; now left
       | intros [Hd | (Ht & _)];
         [ try discriminate; injection Hd as ->; reflexivity
         | contradiction ] ]).
  - destruct tags; [| discriminate].
    destruct op;
      unfold value, trace, lifecycle, Start, Stop, Restart, Reload,
        wait_and_log;
      split_answers;
      (split;
       [ intros Hv; try discriminate; injection Hv as ->;
         first [ now left
               | right; split; [reflexivity | eexists; reflexivity] ]
       | intros [Hd | (_ & e1' & Hc)];
         [ try discriminate; injection Hd as ->; reflexivity
         | try discriminate; inversion Hc; subst; reflexivity ] ]).
Qed.

(** ** Kill and Status: what they never do *)

(** X6. [Kill] sends signal 9 with every kill call, writes no log line, never
    waits on the completion channel and leaves the file system alone.
    Without the "all" flag it returns exactly what the connection attempt
    returned: what the manager did with the kill calls does not show. *)
Theorem Kill_is_blind (env : Env) (s : Systemd) (all : bool)
        (tags : list string) :
  kill_signals (trace env (Kill s all tags))
  = map (fun _ => 9) (unit_names (trace env (Kill s all tags))) /\
  logs (trace env (Kill s all tags)) = [] /\
  waits (trace env (Kill s all tags)) = 0%nat /\
  changes (trace env (Kill s all tags)) = [] /\
  (all = false -> value env (Kill s all tags) = Returned (dial (env []))).
Proof.
  assert (Hloop : forall (A B : Type) (f g : Event -> list B)
                         (name : A -> string) (l : list A) h,
             (forall n, f (Ev (KillUnit n 9) tt) = g (Ev (KillUnit n 9) tt)) ->
             flat_map f (snd (run env h (for_each l (fun x =>
                           call (KillUnit (name x) 9)))))
             = flat_map g (snd (run env h (for_each l (fun x =>
                           call (KillUnit (name x) 9)))))).
  { intros A B f g name l h Hfg. apply for_each_agree. intros x h0. simpl.
    now rewrite Hfg. }
  unfold kill_signals, unit_names, logs, waits, changes.
  rewrite map_flat_map.
  assert (Hobs : forall (B : Type) (f g : Event -> list B),
             (forall n, f (Ev (KillUnit n 9) tt) = g (Ev (KillUnit n 9) tt)) ->
             (forall r, f (Ev NewSystemConnection r)
                        = g (Ev NewSystemConnection r)) ->
             (forall a b r, f (Ev (ListUnitsByPatterns a b) r)
                            = g (Ev (ListUnitsByPatterns a b) r)) ->
             flat_map f (trace env (Kill s all tags))
             = flat_map g (trace env (Kill s all tags))).
  { intros B f g Hk Hd Hl. unfold trace, Kill, Status. simpl.
    rewrite Hd. destruct (dial (env [])); simpl; [reflexivity |].
    destruct all; simpl.
    - rewrite Hd. destruct (dial _); simpl; [reflexivity |].
      rewrite Hl. destruct (list_units _ _ _); simpl; [| reflexivity].
      rewrite run_then_Ret_snd. do 3 f_equal. now apply Hloop.
    - destruct (0 <? length tags)%nat.
      + rewrite run_then_Ret_snd. f_equal. now apply Hloop.
      + simpl. now rewrite !Hk. }
  assert (Hnil : forall (B : Type) (l : list Event),
             flat_map (fun _ : Event => @nil B) l = []).
  { intros B l. induction l; simpl; auto. }
  split; [apply Hobs; reflexivity |].
  split; [rewrite (Hobs _ log_of (fun _ => [])), Hnil; reflexivity |].
  split; [rewrite (Hobs _ waited_of (fun _ => [])), Hnil; reflexivity |].
  split; [rewrite (Hobs _ change_of (fun _ => [])), Hnil; reflexivity |].
  intros ->. unfold value, Kill. simpl.
  destruct (dial (env [])); simpl; [reflexivity |].
  destruct (0 <? length tags)%nat.
  - apply run_then_Ret_fst with (a := tt). apply for_each_returns.
    intros tag h. reflexivity.
  - reflexivity.
Qed.

Lemma Kill_is_blind_witness :
  value (steady no_bus) (Kill app false ["a"]) = Returned (Some bus_error) /\
  value (steady calm) (Kill app false ["a"]) = Returned None /\
  kill_signals (trace (steady calm) (Kill app false ["a"; "b"])) = [9; 9].
Proof.
  destruct (Kill_is_blind (steady no_bus) app false ["a"])
    as (_ & _ & _ & _ & Hdown).
  destruct (Kill_is_blind (steady calm) app false ["a"])
    as (_ & _ & _ & _ & Hup).
  destruct (Kill_is_blind (steady calm) app false ["a"; "b"]) as (Hsig & _).
  split; [exact (Hdown eq_refl) |]. split; [exact (Hup eq_refl) |].
  rewrite Hsig. reflexivity.
Defined.

Lemma Status_observe (env : Env) (s : Systemd) (show : bool) (B : Type)
      (f : Event -> list B) :
  (forall lvl msg fields, f (Ev (Log lvl msg fields) tt) = []) ->
  flat_map f (trace env (Status s show))
  = f (Ev NewSystemConnection (dial (env [])))
    ++ match dial (env []) with
       | Some _ => []
       | None =>
           f (Ev (ListUnitsByPatterns [] [Name s +++ "*"])
                 (list_units (env [Ev NewSystemConnection None]) []
                             [Name s +++ "*"]))
       end.
Proof.
  intros Hlog. unfold trace, Status. simpl.
  destruct (dial (env [])) as [e |]; simpl; [reflexivity |].
  f_equal.
  destruct (list_units _ _ _) as [items | e]; simpl; [| apply app_nil_r].
  rewrite run_then_Ret_snd.
  destruct show; simpl; [| now rewrite app_nil_r].
  rewrite for_each_silent; [now rewrite app_nil_r |].
  intros item h.
  destruct (UnitStatus.SubState item =? "running")%string; simpl;
    now rewrite Hlog.
Qed.

(** X7. [Status] only looks: it hands the manager no lifecycle call, receives
    nothing on the completion channel and asks the file system for no
    change.  When the connection fails it returns that error without
    querying; when the query fails it returns that error and writes no log
    line, also with [show = true]. *)
Theorem Status_only_looks (env : Env) (s : Systemd) (show : bool) :
  unit_names (trace env (Status s show)) = [] /\
  waits (trace env (Status s show)) = 0%nat /\
  changes (trace env (Status s show)) = [] /\
  (forall e : error,
      dial (env []) = Some e ->
      value env (Status s show) = Returned (Err e) /\
      queries (trace env (Status s show)) = []) /\
  (forall e : error,
      dial (env []) = None ->
      list_units (env [Ev NewSystemConnection None]) [] [Name s +++ "*"]
      = Err e ->
      value env (Status s show) = Returned (Err e) /\
      logs (trace env (Status s show)) = []).
Proof.
  unfold unit_names, waits, changes.
  rewrite !Status_observe by reflexivity.
  split; [destruct (dial (env [])); reflexivity |].
  split; [destruct (dial (env [])); reflexivity |].
  split; [destruct (dial (env [])); reflexivity |].
  split.
  - intros e Hdial. unfold value, trace, queries, Status. simpl.
    rewrite Hdial. split; reflexivity.
  - intros e Hdial Hlist. unfold value, trace, logs, Status. simpl.
    rewrite Hdial. simpl. rewrite Hlist. split; reflexivity.
Qed.

Lemma Status_only_looks_witness :
  dial (steady no_bus []) = Some bus_error /\
  value (steady no_bus) (Status app true) = Returned (Err bus_error) /\
  dial (steady no_listing []) = None /\
  value (steady no_listing) (Status app true)
  = Returned (Err "Access denied") /\
  logs (trace (steady no_listing) (Status app true)) = [].
Proof.
  destruct (Status_only_looks (steady no_bus) app true)
    as (_ & _ & _ & Hdown & _).
  destruct (Status_only_looks (steady no_listing) app true)
    as (_ & _ & _ & _ & Hfail).
  split; [reflexivity |]. split; [exact (proj1 (Hdown _ eq_refl)) |].
  split; [reflexivity |]. exact (Hfail _ eq_refl eq_refl).
Defined.

(** ** Install and Remove *)

Lemma Remove_removal_names (env : Env) (s : Systemd) :
  map fst (removals (trace env (Remove s)))
  = [UnitFile s false; UnitFile s true].
Proof.
  destruct (Remove_run_shape env s) as (pre & r1 & r2 & Hrun & Hpre).
  unfold trace. rewrite Hrun. simpl.
  unfold removals. rewrite flat_map_app.
  fold (removals pre). rewrite (changes_nil_removals pre Hpre).
  destruct r1, r2; reflexivity.
Qed.

(** X8. [Remove] deletes only after its stop step: nothing is asked of the file
    system before the two deletions, which are the two paths [UnitFile]
    knows, and afterwards the manager is not contacted again.  The line
    "Removed <name>" is logged exactly when [Remove] returns nil. *)
Theorem Remove_stops_before_deleting (env : Env) (s : Systemd) :
  exists (pre : list Event) (r1 r2 : option error) (post : list Event),
    trace env (Remove s)
    = pre ++ Ev (OsRemove (UnitFile s false)) r1
          :: Ev (OsRemove (UnitFile s true)) r2 :: post /\
    changes pre = [] /\
    unit_names post = [] /\
    dials post = [] /\
    (value env (Remove s) = Returned None
     <-> logs post = [(InfoLevel, "Removed " +++ Name s, [])]) /\
    (value env (Remove s) = Returned None \/ post = []).
Proof.
  destruct (Remove_run_shape env s) as (pre & r1 & r2 & Hrun & Hpre).
  unfold trace, value. rewrite Hrun. simpl.
  exists pre, r1, r2.
  eexists. split; [reflexivity |]. split; [exact Hpre |].
  destruct r1, r2; simpl;
    (split; [reflexivity |]); (split; [reflexivity |]);
    (split; [split; intros H; try discriminate; reflexivity | auto]).
Qed.

Lemma UnitFile_distinct (s : Systemd) : UnitFile s true <> UnitFile s false.
Proof.
  unfold UnitFile. intros H.
  assert (Hinj : forall a b c : string, a +++ b = a +++ c -> b = c).
  { induction a as [| ch a IH]; intros b c Hbc; [exact Hbc |].
    simpl in Hbc. injection Hbc as Hbc. now apply IH. }
  apply Hinj in H. apply Hinj in H. discriminate.
Qed.

Section InstallFacts.

Variable CreateUnit :
  bool -> string -> string -> string -> list string -> result string.
Variable env : Env.
Variable s : Systemd.
Variable multi : bool.
Variable args : list string.

Lemma Install_writes_cases :
  writes (trace env (Install CreateUnit s multi args)) = []
  \/ exists execPath buf,
       CreateUnit multi (Name s) (Description s) execPath args = Ok buf /\
       writes (trace env (Install CreateUnit s multi args))
       = [(UnitFile s multi, buf, 420)].
Proof.
  unfold trace, Install. simpl.
  destruct (os_executable _) as [execPath | e]; simpl; [| now left].
  destruct (CreateUnit multi (Name s) (Description s) execPath args)
    as [buf | e] eqn:Hunit; simpl; [| now left].
  right. exists execPath, buf. split; [exact Hunit |].
  destruct (os_write_file _ _ _ _); simpl; [reflexivity |].
  destruct (dial _); reflexivity.
Qed.

End InstallFacts.

(** X9. [Install] stops at its first failure and returns that error as it is: a
    failed lookup of the executable or a failed rendering leaves the file
    system and the bus untouched; a failed write is logged at error
    severity and no connection is attempted. *)
Theorem Install_stops_at_first_failure
        (CreateUnit : bool -> string -> string -> string -> list string
                      -> result string)
        (env : Env) (s : Systemd) (multi : bool) (args : list string)
        (e : error) :
  let started := Ev (Log InfoLevel ("Install... " +++ Name s) []) tt in
  (os_executable (env [started]) = Err e ->
   run env [] (Install CreateUnit s multi args)
   = (Returned (Some e), [started; Ev OsExecutable (Err e)])) /\
  (forall execPath,
      os_executable (env [started]) = Ok execPath ->
      CreateUnit multi (Name s) (Description s) execPath args = Err e ->
      run env [] (Install CreateUnit s multi args)
      = (Returned (Some e), [started; Ev OsExecutable (Ok execPath)])) /\
  (forall execPath buf,
      os_executable (env [started]) = Ok execPath ->
      CreateUnit multi (Name s) (Description s) execPath args = Ok buf ->
      os_write_file (env [started; Ev OsExecutable (Ok execPath)])
                    (UnitFile s multi) buf 420 = Some e ->
      run env [] (Install CreateUnit s multi args)
      = (Returned (Some e),
         [started; Ev OsExecutable (Ok execPath);
          Ev (OsWriteFile (UnitFile s multi) buf 420) (Some e);
          Ev (Log ErrorLevel "Failed to write unit file"
                  [("name", UnitFile s multi); ("error", e)]) tt])).
Proof.
  intros started. unfold started. split; [| split].
  - intros Hexe. unfold Install. simpl. rewrite Hexe. reflexivity.
  - intros execPath Hexe Hunit. unfold Install. simpl.
    rewrite Hexe, Hunit. reflexivity.
  - intros execPath buf Hexe Hunit Hwrite. unfold Install. simpl.
    rewrite Hexe, Hunit. simpl. rewrite Hwrite. reflexivity.
Qed.

Lemma Install_stops_at_first_failure_witness :
  os_executable
    (steady no_executable [Ev (Log InfoLevel "Install... app" []) tt])
  = Err "readlink /proc/self/exe: permission denied" /\
  run (steady no_executable) [] (Install plain_unit app true [])
  = (Returned (Some "readlink /proc/self/exe: permission denied"),
     [Ev (Log InfoLevel "Install... app" []) tt;
      Ev OsExecutable (Err "readlink /proc/self/exe: permission denied")]) /\
  changes (trace (steady read_only_fs) (Install plain_unit app false []))
  = ["/etc/systemd/system/app.service"] /\
  dials (trace (steady read_only_fs) (Install plain_unit app false [])) = [].
Proof.
  split; [reflexivity |].
  destruct (Install_stops_at_first_failure plain_unit (steady no_executable)
              app true [] "readlink /proc/self/exe: permission denied")
    as (Hexe & _).
  split; [exact (Hexe eq_refl) |].
  destruct (Install_stops_at_first_failure plain_unit (steady read_only_fs)
              app false [] "read-only file system") as (_ & _ & Hwrite).
  specialize (Hwrite _ _ eq_refl eq_refl eq_refl).
  unfold trace. rewrite Hwrite. split; reflexivity.
Defined.

(** X10. When nothing fails before it, [Install] writes the rendered text to
    [UnitFile] with mode 0644, then connects, logs "Installed <name>" and
    asks the manager to reload its unit files, in that order.  What it
    returns is the outcome of that reload: "Installed" is logged also when
    the reload then fails. *)
Theorem Install_returns_reload_outcome
        (CreateUnit : bool -> string -> string -> string -> list string
                      -> result string)
        (env : Env) (s : Systemd) (multi : bool) (args : list string)
        (execPath buf : string) (r : option error) :
  (forall h, os_executable (env h) = Ok execPath) ->
  CreateUnit multi (Name s) (Description s) execPath args = Ok buf ->
  (forall h, os_write_file (env h) (UnitFile s multi) buf 420 = None) ->
  (forall h, dial (env h) = None) ->
  (forall h, reload_daemon (env h) = r) ->
  run env [] (Install CreateUnit s multi args)
  = (Returned r,
     [Ev (Log InfoLevel ("Install... " +++ Name s) []) tt;
      Ev OsExecutable (Ok execPath);
      Ev (OsWriteFile (UnitFile s multi) buf 420) None;
      Ev NewSystemConnection None;
      Ev (Log InfoLevel ("Installed " +++ Name s) []) tt;
      Ev ReloadDaemon r]).
Proof.
  intros Hexe Hunit Hwrite Hdial Hreload. unfold Install. simpl.
  rewrite Hexe, Hunit. simpl. rewrite Hwrite. simpl. rewrite Hdial. simpl.
  rewrite Hreload. reflexivity.
Qed.

Lemma Install_returns_reload_outcome_witness :
  value (steady no_daemon_reload) (Install plain_unit app true ["--port"])
  = Returned (Some "Interactive authentication required.") /\
  logs (trace (steady no_daemon_reload)
              (Install plain_unit app true ["--port"]))
  = [(InfoLevel, "Install... app", []); (InfoLevel, "Installed app", [])] /\
  writes (trace (steady no_daemon_reload)
                (Install plain_unit app true ["--port"]))
  = [("/etc/systemd/system/app@.service", "[Unit]demo service", 420)].
Proof.
  pose proof (Install_returns_reload_outcome plain_unit
                (steady no_daemon_reload) app true ["--port"]
                (execPath := "/usr/local/bin/app")
                (buf := "[Unit]demo service")
                (r := Some "Interactive authentication required.")
                (fun _ => eq_refl) eq_refl (fun _ => eq_refl)
                (fun _ => eq_refl) (fun _ => eq_refl)) as Hrun.
  unfold value, trace. rewrite Hrun. repeat split.
Defined.

(** X11. Whatever [Install] wrote, [Remove] deletes: the one file [Install] may
    write is [UnitFile s multi], and both values of [UnitFile] are among the
    two paths [Remove] deletes; the two paths are different. *)
Theorem Install_then_Remove
        (CreateUnit : bool -> string -> string -> string -> list string
                      -> result string)
        (env env' : Env) (s : Systemd) (multi : bool) (args : list string)
        (w : string * string * Z) :
  In w (writes (trace env (Install CreateUnit s multi args))) ->
  fst (fst w) = UnitFile s multi /\
  snd w = 420 /\
  In (fst (fst w)) (map fst (removals (trace env' (Remove s)))) /\
  UnitFile s true <> UnitFile s false.
Proof.
  intros Hin.
  destruct (Install_writes_cases CreateUnit env s multi args)
    as [Hnone | (execPath & buf & _ & Hone)].
  - rewrite Hnone in Hin. contradiction.
  - rewrite Hone in Hin. destruct Hin as [<- | []]. cbn [fst snd].
    split; [reflexivity |]. split; [reflexivity |].
    split; [| apply UnitFile_distinct].
    rewrite Remove_removal_names. destruct multi; simpl; auto.
Qed.

Lemma Install_then_Remove_witness :
  In ("/etc/systemd/system/app@.service", "[Unit]demo service", 420)
     (writes (trace (steady calm) (Install plain_unit app true []))) /\
  In "/etc/systemd/system/app@.service"
     (map fst (removals (trace (steady nothing_to_remove) (Remove app)))).
Proof.
  assert (Hin : In ("/etc/systemd/system/app@.service",
                    "[Unit]demo service", 420)
                   (writes (trace (steady calm)
                                  (Install plain_unit app true []))))
    by (left; reflexivity).
  split; [exact Hin |].
  exact (proj1 (proj2 (proj2
           (Install_then_Remove plain_unit (steady calm)
              (steady nothing_to_remove) app true [] _ Hin)))).
Defined.

(** ** Enable, then Disable *)

Lemma append_cancel_l (a b c : string) : a +++ b = a +++ c -> b = c.
Proof.
  induction a as [| ch a IH]; intros Hbc; [exact Hbc |].
  simpl in Hbc. injection Hbc as Hbc. now apply IH.
Qed.

Lemma bare_link_not_tag_link (s : Systemd) (tag : string) :
  tag_link s tag <> bare_link s.
Proof.
  unfold tag_link, bare_link. intros H.
  apply append_cancel_l in H. apply append_cancel_l in H. discriminate.
Qed.

Lemma Enable_single (env : Env) (s : Systemd) (tags : list string) :
  os_stat (env []) ("/etc/systemd/system/" +++ Name s +++ "@.service")
  <> Ok false ->
  (os_stat (env [Ev (OsStat ("/etc/systemd/system/" +++ Name s
                             +++ "@.service"))
                    (os_stat (env []) ("/etc/systemd/system/" +++ Name s
                                       +++ "@.service"))])
           ("/etc/systemd/system/" +++ Name s +++ ".service") = Ok false /\
   map fst (symlinks (trace env (Enable s tags)))
   = [("/etc/systemd/system/" +++ Name s +++ ".service", bare_link s)])
  \/ symlinks (trace env (Enable s tags)) = [].
Proof.
  intros Hno. unfold trace, Enable, fileExists. simpl.
  destruct (os_stat (env []) _) as [[|] | e1]; try congruence; simpl;
    (destruct (os_stat _ _) as [[|] | e2]; simpl; [now right | | now right]);
    left; (split; [reflexivity |]);
    destruct (os_symlink _ _ _); reflexivity.
Qed.

(** X12. Every link [Enable] makes is one [Disable] deletes when it is given the
    same tags, provided no tags are given or the templated unit file is
    installed. *)
Theorem Disable_undoes_Enable (env env' : Env) (s : Systemd)
        (tags : list string) (link : string) :
  tags = [] \/
  os_stat (env []) ("/etc/systemd/system/" +++ Name s +++ "@.service")
  = Ok false ->
  In link (map (fun a => snd (fst a)) (symlinks (trace env (Enable s tags)))) ->
  In link (map fst (removals (trace env' (Disable s tags)))).
Proof.
  intros Hcase Hin.
  rewrite <- (map_map fst snd) in Hin.
  destruct (os_stat (env []) ("/etc/systemd/system/" +++ Name s
                              +++ "@.service")) as [[|] | e1] eqn:Hstat.
  - assert (Htags : tags = []) by (destruct Hcase; congruence). subst tags.
    rewrite (proj1 (Disable_without_tags env' s)).
    destruct (Enable_single env s []) as [[_ Hone] | Hnone];
      [congruence | rewrite Hone in Hin | rewrite Hnone in Hin];
      simpl in Hin; [| contradiction].
    destruct Hin as [<- | []]. right. now left.
  - destruct (Enable_templated env s tags Hstat) as [_ Hlinks].
    rewrite Hlinks, map_map in Hin. simpl in Hin.
    destruct tags as [| tag tags].
    + rewrite (proj1 (Disable_without_tags env' s)).
      destruct Hin as [<- | []]. now left.
    + rewrite (proj1 (Disable_with_tags env' s
                        (tags := tag :: tags) ltac:(discriminate))).
      exact Hin.
  - assert (Htags : tags = []) by (destruct Hcase; congruence). subst tags.
    rewrite (proj1 (Disable_without_tags env' s)).
    destruct (Enable_single env s []) as [[_ Hone] | Hnone];
      [congruence | rewrite Hone in Hin | rewrite Hnone in Hin];
      simpl in Hin; [| contradiction].
    destruct Hin as [<- | []]. right. now left.
Qed.

Lemma Disable_undoes_Enable_witness :
  In "/etc/systemd/system/multi-user.target.wants/app@blue.service"
     (map (fun a => snd (fst a))
          (symlinks (trace (steady templated_only) (Enable app ["blue"])))) /\
  In "/etc/systemd/system/multi-user.target.wants/app@blue.service"
     (map fst (removals (trace (steady calm) (Disable app ["blue"])))).
Proof.
  assert (Hin : In "/etc/systemd/system/multi-user.target.wants/app@blue.service"
                   (map (fun a => snd (fst a))
                        (symlinks (trace (steady templated_only)
                                         (Enable app ["blue"])))))
    by (left; reflexivity).
  split; [exact Hin |].
  exact (@Disable_undoes_Enable (steady templated_only) (steady calm) app
           ["blue"] _ (or_intror eq_refl) Hin).
Defined.

(** X13. With tags given but only the single-instance unit file installed,
    [Enable] ignores the tags and makes the bare link [<name>.service];
    [Disable] with the same tags does not delete that link. *)
Theorem Enable_with_tags_leaves_bare_link (env env' : Env) (s : Systemd)
        (tags : list string) :
  tags <> [] ->
  os_stat (env []) ("/etc/systemd/system/" +++ Name s +++ "@.service")
  <> Ok false ->
  os_stat (env [Ev (OsStat ("/etc/systemd/system/" +++ Name s
                            +++ "@.service"))
                   (os_stat (env []) ("/etc/systemd/system/" +++ Name s
                                      +++ "@.service"))])
          ("/etc/systemd/system/" +++ Name s +++ ".service") = Ok false ->
  map (fun a => snd (fst a)) (symlinks (trace env (Enable s tags)))
  = [bare_link s] /\
  ~ In (bare_link s) (map fst (removals (trace env' (Disable s tags)))).
Proof.
  intros Htags Hno Hyes. split.
  - rewrite <- (map_map fst snd).
    destruct (Enable_single env s tags Hno) as [[_ Hone] | Hnone].
    + rewrite Hone. reflexivity.
    + exfalso. revert Hnone. unfold trace, Enable, fileExists. simpl.
      destruct (os_stat (env []) _) as [[|] | e1]; try congruence; simpl;
        rewrite Hyes; simpl; destruct (os_symlink _ _ _); discriminate.
  - rewrite (proj1 (Disable_with_tags env' s Htags)).
    intros Hin. apply in_map_iff in Hin. destruct Hin as (tag & Heq & _).
    exact (@bare_link_not_tag_link s tag Heq).
Qed.

Lemma Enable_with_tags_leaves_bare_link_witness :
  map (fun a => snd (fst a))
      (symlinks (trace (steady single_only) (Enable app ["blue"])))
  = ["/etc/systemd/system/multi-user.target.wants/app.service"] /\
  ~ In "/etc/systemd/system/multi-user.target.wants/app.service"
       (map fst (removals (trace (steady calm) (Disable app ["blue"])))).
Proof.
  exact (@Enable_with_tags_leaves_bare_link (steady single_only)
           (steady calm) app ["blue"] ltac:(discriminate)
           ltac:(discriminate) eq_refl).
Defined.

(** ** The unit verb *)

(** X14. The body of the hidden [unit] verb only reads and prints: it never
    connects to the bus and asks the file system for no change.  With the
    template flag it prints exactly the text [CreateUnit] renders and reads
    no file; without it, it reads [UnitFile] and prints exactly what it
    read, or returns the read error and prints nothing. *)
Theorem unit_verb_reads_and_prints
        (CreateUnit : bool -> string -> string -> string -> list string
                      -> result string)
        (env : Env) (s : Systemd) (template multi : bool)
        (args : list string) :
  let t := trace env (RunE CreateUnit s (unitCmd template multi args)) in
  let v := value env (RunE CreateUnit s (unitCmd template multi args)) in
  dials t = [] /\ unit_names t = [] /\ changes t = [] /\
  (template = true ->
   reads t = [] /\
   forall execPath buf,
     os_executable (env []) = Ok execPath ->
     CreateUnit multi (Name s) (Description s) execPath args = Ok buf ->
     v = Returned None /\ prints t = [buf]) /\
  (template = false ->
   reads t = [UnitFile s multi] /\
   (forall buf,
       os_read_file
         (env [Ev (Log InfoLevel ("filepath = " +++ UnitFile s multi) []) tt])
         (UnitFile s multi) = Ok buf ->
       v = Returned None /\ prints t = [buf]) /\
   (forall e,
       os_read_file
         (env [Ev (Log InfoLevel ("filepath = " +++ UnitFile s multi) []) tt])
         (UnitFile s multi) = Err e ->
       v = Returned (Some e) /\ prints t = [])).
Proof.
  intros t v. unfold t, v, value, trace, RunE.
  destruct template; simpl.
  - destruct (os_executable (env [])) as [execPath | e] eqn:Hexe; simpl.
    + destruct (CreateUnit multi (Name s) (Description s) execPath args)
        as [buf | e] eqn:Hunit; simpl;
        (split; [reflexivity |]); (split; [reflexivity |]);
        (split; [reflexivity |]); (split; [| discriminate]);
        intros _; (split; [reflexivity |]);
        intros p b Hp Hb; injection Hp as <-; rewrite Hunit in Hb;
        [injection Hb as <-; split; reflexivity | discriminate].
    + split; [reflexivity |]. split; [reflexivity |].
      split; [reflexivity |]. split; [| discriminate].
      intros _. split; [reflexivity |]. intros p b Hp. discriminate.
  - destruct (os_read_file _ _) as [buf | e] eqn:Hread; simpl;
      (split; [reflexivity |]); (split; [reflexivity |]);
      (split; [reflexivity |]); (split; [discriminate |]);
      intros _; (split; [reflexivity |]); split; intros x Hx;
      try discriminate; injection Hx as <-; split; reflexivity.
Qed.

Lemma unit_verb_reads_and_prints_witness :
  prints (trace (steady calm)
                (RunE plain_unit app (unitCmd true true ["--port"])))
  = ["[Unit]demo service"] /\
  reads (trace (steady no_bus) (RunE plain_unit app (unitCmd false true [])))
  = ["/etc/systemd/system/app@.service"].
Proof.
  destruct (unit_verb_reads_and_prints plain_unit (steady calm) app true true
              ["--port"]) as (_ & _ & _ & Htemplate & _).
  destruct (unit_verb_reads_and_prints plain_unit (steady no_bus) app false
              true []) as (_ & _ & _ & _ & Hfile).
  split.
  - exact (proj2 (proj2 (Htemplate eq_refl) _ _ eq_refl eq_refl)).
  - exact (proj1 (Hfile eq_refl)).
Defined.

Lemma count_up_upto_witness :
  0 <= 3 < int_max /\ count_up 10 1 3 = [1; 2; 3].
Proof.
  assert (Hrange : 0 <= 3 < int_max) by (unfold int_max; lia).
  split; [exact Hrange |].
  exact (count_up_upto (num := 3) (fuel := 10) Hrange ltac:(simpl; lia)).
Defined.
